(** * Trade-signal governance pipeline: a shallow embedding

    The Python sources under [src/control_logic], [src/helpers] and
    [src/enforcer] are embedded as pure functions with explicit state
    passing.  Conventions used throughout:

    - a Python [float] is the rational number it denotes ([Q]); comparisons
      are the boolean tests [Qlt_bool]/[Qle_bool]. The quotients of the
      regime filter, the scaling of the allocation rules and the wait the
      coordinator reports round every operation to binary64 ([F64]); the
      sums and products of the risk protocol are kept exact;
    - clock readings ([datetime.utcnow()], [time.time()]) are arguments of the
      function that reads them;
    - a raised exception is an explicit result constructor;
    - a [dict] with string keys is a [gmap string _], except the bin-weight
      mapping, which is summed and rewritten in iteration order and is an
      association list in that order, and the regime [state], whose keys are
      fixed and which is a record of options. *)

From Stdlib Require Import ZArith QArith Qabs Lqa Lia Bool List.
From Stdlib Require Import Strings.String Strings.Ascii.
From Stdlib Require Import Sorting.Sorted.
From stdpp Require Import base option gmap strings pretty list fin_maps.
Import ListNotations.

Local Open Scope Z_scope.

(** ** Numeric helpers *)

(** Python's [a < b] on floats, as a boolean test on rationals. *)
Definition Qlt_bool (a b : Q) : bool := negb (Qle_bool b a).

(** ** Binary64 arithmetic

    [F64.round q] is the binary64 value nearest to [q] (ties to even, 53
    significant bits, gradual underflow below [2^-1022]), as a rational;
    the exponent is not bounded above, so overflow to infinity is outside
    the model. An IEEE operation is the rounding of the exact result. A
    decimal literal, or a value that is not itself a binary64 number,
    stands for its rounding. *)

Module F64.

Definition emin : Z := -1074.

(** The rounding of the positive rational [n / d]: [e] is the exponent of
    the last place, [m] the integer significand before rounding. *)
Definition round_pos (n d : positive) : Q :=
  let e1 := Z.log2 (Zpos n) - Z.log2 (Zpos d) - 52 in
  let lead :=
    if 0 <=? e1 then Zpos n / (Zpos d * 2 ^ e1) else (Zpos n * 2 ^ (- e1)) / Zpos d in
  let e2 := if lead <? 2 ^ 52 then e1 - 1 else e1 in
  let e := Z.max e2 emin in
  let N := Zpos n * 2 ^ Z.max 0 (- e) in
  let D := Zpos d * 2 ^ Z.max 0 e in
  let m := N / D in
  let r := N mod D in
  let m' :=
    match 2 * r ?= D with
    | Lt => m
    | Gt => m + 1
    | Eq => if Z.even m then m else m + 1
    end in
  if 0 <=? e then inject_Z (m' * 2 ^ e) else m' # Z.to_pos (2 ^ (- e)).

Definition round (q : Q) : Q :=
  match Qnum q with
  | Z0 => 0
  | Zpos n => round_pos n (Qden q)
  | Zneg n => - round_pos n (Qden q)
  end.

Definition add (a b : Q) : Q := round (a + b).
Definition sub (a b : Q) : Q := round (a - b).
Definition mul (a b : Q) : Q := round (a * b).

(** For a divisor that is not zero. *)
Definition div (a b : Q) : Q := round (a / b).

End F64.

(** ** Strings

    Python [str] values are modelled as [string] (sequences of one-byte
    characters); [lower] and the substring test [in] act on ASCII. *)

Module PyStr.

(** [c.lower()] on one character: [A]..[Z] move to [a]..[z]. *)
Definition lower_ascii (c : ascii) : ascii :=
  let n := nat_of_ascii c in
  if ((65 <=? n) && (n <=? 90))%nat then ascii_of_nat (n + 32) else c.

(** [s.lower()] *)
Fixpoint lower (s : string) : string :=
  match s with
  | EmptyString => EmptyString
  | String c s' => String (lower_ascii c) (lower s')
  end.

(** [sub in s]: [sub] occurs in [s] as a contiguous substring. *)
Fixpoint contains (sub s : string) : bool :=
  String.prefix sub s ||
  match s with
  | EmptyString => false
  | String _ s' => contains sub s'
  end.

End PyStr.

(** ** control_logic/risk_execution_protocol.py *)

Module RiskExecutionProtocol.

Inductive Tier := low | retail | pro.

(** The attributes [__init__] creates on the instance. Instants
    ([datetime]) are microseconds since the epoch. *)
Record t := mk {
  account_equity : Q;
  tier : Tier;
  max_position_size_pct : Q;
  max_trades_per_hour : nat;
  max_daily_drawdown_pct : Q;
  max_trade_drawdown_pct : Q;
  daily_loss_total : Q;
  trade_history : list Q;
  last_trade_time : option Z;
  execution_frozen : bool;
  throttle_mode : bool;
  throttle_trigger_pct : Q;
  throttle_scaling : Q;
  locked_due_to_freq : bool;
  trade_timestamps : list Z
}.

Definition _define_tier (equity : Q) : Tier :=
  if Qlt_bool equity 2000 then low
  else if Qlt_bool equity 25000 then retail
  else pro.

Definition init (equity : Q) : t :=
  let tr := _define_tier equity in
  {| account_equity := equity;
     tier := tr;
     max_position_size_pct :=
       match tr with low => 15 # 100 | retail => 20 # 100 | pro => 25 # 100 end;
     max_trades_per_hour :=
       match tr with low => 8 | retail => 6 | pro => 4 end%nat;
     max_daily_drawdown_pct := 4 # 100;
     max_trade_drawdown_pct := 15 # 1000;
     daily_loss_total := 0;
     trade_history := [];
     last_trade_time := None;
     execution_frozen := false;
     throttle_mode := false;
     throttle_trigger_pct := 25 # 1000;
     throttle_scaling := 5 # 10;
     locked_due_to_freq := false;
     trade_timestamps := [] |}.

Definition _risk_scaling_from_confidence (classification : string) : Q :=
  let tag := PyStr.lower classification in
  if PyStr.contains "a_" tag || PyStr.contains "high" tag then 1
  else if PyStr.contains "b_" tag || PyStr.contains "med" tag then 65 # 100
  else if PyStr.contains "c_" tag || PyStr.contains "low" tag then 4 # 10
  else 25 # 100.

Inductive ValidateMsg :=
| ExecutionFrozenDenied
| PositionExceedsScaledLimit (classification : string)
| TradePermitted.

Definition validate_trade_request (self : t) (classification : string)
    (position_size_pct : Q) : bool * ValidateMsg :=
  if execution_frozen self then (false, ExecutionFrozenDenied)
  else
    let scale_factor := _risk_scaling_from_confidence classification in
    let scaled_limit := (max_position_size_pct self * scale_factor)%Q in
    if Qlt_bool scaled_limit position_size_pct
    then (false, PositionExceedsScaledLimit classification)
    else (true, TradePermitted).

(** The strings [record_trade] returns; the formatted numbers are kept as
    arguments. *)
Inductive RecordMsg :=
| FrozenNoPrimaryEntries
| EntryFrequencyExceeded
| TradeSizeTooLarge (position_size_pct : Q) (classification : string)
| TradeLossExceeded (pnl_pct : Q)
| DailyLossExceeded (daily_loss : Q)
| TradeRecorded.

(** [(now - t).seconds]: the seconds component of a normalised
    [timedelta], always in [0, 86400). *)
Definition timedelta_seconds (delta_us : Z) : Z :=
  (delta_us / 1000000) mod 86400.

Definition is_primary_entry (trade_type operation_type : string) : bool :=
  String.eqb trade_type "entry" && String.eqb operation_type "primary".

Definition set_frozen (self : t) (freq : bool) : t :=
  {| account_equity := account_equity self;
     tier := tier self;
     max_position_size_pct := max_position_size_pct self;
     max_trades_per_hour := max_trades_per_hour self;
     max_daily_drawdown_pct := max_daily_drawdown_pct self;
     max_trade_drawdown_pct := max_trade_drawdown_pct self;
     daily_loss_total := daily_loss_total self;
     trade_history := trade_history self;
     last_trade_time := last_trade_time self;
     execution_frozen := true;
     throttle_mode := throttle_mode self;
     throttle_trigger_pct := throttle_trigger_pct self;
     throttle_scaling := throttle_scaling self;
     locked_due_to_freq := freq || locked_due_to_freq self;
     trade_timestamps := trade_timestamps self |}.

Definition set_timestamps (self : t) (ts : list Z) : t :=
  {| account_equity := account_equity self;
     tier := tier self;
     max_position_size_pct := max_position_size_pct self;
     max_trades_per_hour := max_trades_per_hour self;
     max_daily_drawdown_pct := max_daily_drawdown_pct self;
     max_trade_drawdown_pct := max_trade_drawdown_pct self;
     daily_loss_total := daily_loss_total self;
     trade_history := trade_history self;
     last_trade_time := last_trade_time self;
     execution_frozen := execution_frozen self;
     throttle_mode := throttle_mode self;
     throttle_trigger_pct := throttle_trigger_pct self;
     throttle_scaling := throttle_scaling self;
     locked_due_to_freq := locked_due_to_freq self;
     trade_timestamps := ts |}.

(** Lines 111-113: append to the history, accumulate a loss, stamp. *)
Definition book (self : t) (now : Z) (pnl_pct : Q) : t :=
  {| account_equity := account_equity self;
     tier := tier self;
     max_position_size_pct := max_position_size_pct self;
     max_trades_per_hour := max_trades_per_hour self;
     max_daily_drawdown_pct := max_daily_drawdown_pct self;
     max_trade_drawdown_pct := max_trade_drawdown_pct self;
     daily_loss_total :=
       (daily_loss_total self + (if Qlt_bool pnl_pct 0 then pnl_pct else 0))%Q;
     trade_history := trade_history self ++ [pnl_pct];
     last_trade_time := Some now;
     execution_frozen := execution_frozen self;
     throttle_mode := throttle_mode self;
     throttle_trigger_pct := throttle_trigger_pct self;
     throttle_scaling := throttle_scaling self;
     locked_due_to_freq := locked_due_to_freq self;
     trade_timestamps := trade_timestamps self |}.

Definition set_throttle (self : t) : t :=
  {| account_equity := account_equity self;
     tier := tier self;
     max_position_size_pct := max_position_size_pct self;
     max_trades_per_hour := max_trades_per_hour self;
     max_daily_drawdown_pct := max_daily_drawdown_pct self;
     max_trade_drawdown_pct := max_trade_drawdown_pct self;
     daily_loss_total := daily_loss_total self;
     trade_history := trade_history self;
     last_trade_time := last_trade_time self;
     execution_frozen := execution_frozen self;
     throttle_mode := true;
     throttle_trigger_pct := throttle_trigger_pct self;
     throttle_scaling := throttle_scaling self;
     locked_due_to_freq := locked_due_to_freq self;
     trade_timestamps := trade_timestamps self |}.

(** Lines 111-126, shared by every trade that gets past the entry gate. *)
Definition record_losses (self : t) (now : Z) (pnl_pct : Q) : RecordMsg * t :=
  let s1 := book self now pnl_pct in
  if Qlt_bool pnl_pct (- max_trade_drawdown_pct s1)
  then (TradeLossExceeded pnl_pct, set_frozen s1 false)
  else if Qlt_bool (max_daily_drawdown_pct s1) (Qabs (daily_loss_total s1))
  then (DailyLossExceeded (daily_loss_total s1), set_frozen s1 false)
  else if Qlt_bool (throttle_trigger_pct s1) (Qabs (daily_loss_total s1))
  then (TradeRecorded, set_throttle s1)
  else (TradeRecorded, s1).

(** [now] is the reading of [datetime.utcnow()] on line 94. *)
Definition record_trade (self : t) (now : Z) (pnl_pct position_size_pct : Q)
    (trade_type operation_type classification : string) : RecordMsg * t :=
  if execution_frozen self && is_primary_entry trade_type operation_type
  then (FrozenNoPrimaryEntries, self)
  else if is_primary_entry trade_type operation_type then
    let kept :=
      List.filter (fun ts => timedelta_seconds (now - ts) <? 3600)
                  (trade_timestamps self ++ [now]) in
    let s1 := set_timestamps self kept in
    if (max_trades_per_hour s1 <? length kept)%nat
    then (EntryFrequencyExceeded, set_frozen s1 true)
    else
      let scale_factor := _risk_scaling_from_confidence classification in
      let scaled_limit := (max_position_size_pct s1 * scale_factor)%Q in
      if Qlt_bool scaled_limit position_size_pct
      then (TradeSizeTooLarge position_size_pct classification, set_frozen s1 false)
      else record_losses s1 now pnl_pct
  else record_losses self now pnl_pct.

Definition should_throttle (self : t) : bool :=
  throttle_mode self && negb (execution_frozen self).

Definition reset_daily_risk (self : t) : t :=
  {| account_equity := account_equity self;
     tier := tier self;
     max_position_size_pct := max_position_size_pct self;
     max_trades_per_hour := max_trades_per_hour self;
     max_daily_drawdown_pct := max_daily_drawdown_pct self;
     max_trade_drawdown_pct := max_trade_drawdown_pct self;
     daily_loss_total := 0;
     trade_history := [];
     last_trade_time := last_trade_time self;
     execution_frozen := false;
     throttle_mode := false;
     throttle_trigger_pct := throttle_trigger_pct self;
     throttle_scaling := throttle_scaling self;
     locked_due_to_freq := false;
     trade_timestamps := [] |}.

(** A call a client can make on the object, and a run of such calls. *)
Inductive Call :=
| CallRecordTrade (now : Z) (pnl_pct position_size_pct : Q)
    (trade_type operation_type classification : string)
| CallValidate (classification : string) (position_size_pct : Q)
| CallShouldThrottle.

Definition call (self : t) (c : Call) : t :=
  match c with
  | CallRecordTrade now pnl size ty op cls =>
      snd (record_trade self now pnl size ty op cls)
  | CallValidate _ _ => self
  | CallShouldThrottle => self
  end.

Definition run (self : t) (cs : list Call) : t := fold_left call cs self.

(** The limits [__init__] writes and no method changes. *)
Definition configured (self : t) : Prop :=
  max_daily_drawdown_pct self = 4 # 100 /\
  max_trade_drawdown_pct self = 15 # 1000 /\
  throttle_trigger_pct self = 25 # 1000.

(** Everything a client can do with the object: the calls above and the
    nightly [reset_daily_risk]. *)
Inductive Op :=
| Do (c : Call)
| ResetDailyRisk.

Definition step (self : t) (o : Op) : t :=
  match o with
  | Do c => call self c
  | ResetDailyRisk => reset_daily_risk self
  end.

Definition run_ops (self : t) (os : list Op) : t := fold_left step os self.

End RiskExecutionProtocol.

(** ** Python values carried by a signal packet *)

Module Py.

(** The values a packet field can hold. [inputs] is the mapping of named
    boolean domain flags. *)
Inductive val :=
| VNone
| VStr (s : string)
| VBool (b : bool)
| VInt (z : Z)
| VFloat (q : Q)
| VFlags (d : gmap string bool).

Inductive Exn :=
| KeyError (key : string)
| AttributeError
| TypeError
| ZeroDivisionError
| ValueError (msg : string).

(** The result of code that may raise. *)
Inductive result (A : Type) :=
| Ok (a : A)
| Raise (e : Exn).
Arguments Ok {A} a.
Arguments Raise {A} e.

(** [d[key]] *)
Definition getitem (d : gmap string val) (key : string) : result val :=
  match d !! key with
  | Some v => Ok v
  | None => Raise (KeyError key)
  end.

(** [d.get(key, dflt)] *)
Definition get (d : gmap string val) (key : string) (dflt : val) : val :=
  default dflt (d !! key).

(** Truth value of an object in a boolean context. *)
Definition truthy (v : val) : bool :=
  match v with
  | VNone => false
  | VStr s => negb (String.eqb s "")
  | VBool b => b
  | VInt z => negb (z =? 0)
  | VFloat q => negb (Qeq_bool q 0)
  | VFlags d => negb (bool_decide (d = ∅))
  end.

(** The number behind an operand of an arithmetic comparison. *)
Definition as_num (v : val) : result Q :=
  match v with
  | VFloat q => Ok q
  | VInt z => Ok (inject_Z z)
  | VBool b => Ok (if b then 1 else 0)%Q
  | _ => Raise TypeError
  end.

(** [sum(1 for val in inputs.values() if val)] *)
Definition agree_count (d : gmap string bool) : nat :=
  length (List.filter (fun kv => snd kv) (map_to_list d)).

(** The integer nearest to [q], ties to even. *)
Definition round_half_even (q : Q) : Z :=
  let n := Qnum q in
  let d := Zpos (Qden q) in
  let f := n / d in
  match 2 * (n mod d) ?= d with
  | Lt => f
  | Gt => f + 1
  | Eq => if Z.even f then f else f + 1
  end.

(** The builtin [round(x, 2)] on a float: the decimal with two places
    nearest to the exact value of [x], ties to even, read back as a
    float. *)
Definition round2 (x : Q) : Q :=
  F64.round (inject_Z (round_half_even (x * 100)) / 100).

(** The builtin [str] on a packet value, given the [repr] of floats and of
    flag mappings. *)
Definition str_with (repr_float : Q -> string) (repr_flags : gmap string bool -> string)
    (v : val) : string :=
  match v with
  | VNone => "None"
  | VStr s => s
  | VBool b => if b then "True" else "False"
  | VInt z => pretty z
  | VFloat q => repr_float q
  | VFlags d => repr_flags d
  end.

End Py.

(** ** control_logic/signal_isolation_system.py *)

Module SignalIsolationSystem.
Import Py.

Record OverrideRecord := {
  or_signal_id : val;
  or_timestamp : val;
  or_user : string;
  or_justification : string
}.

Record ExecutionLogEntry := {
  signal_id_hash : string;
  el_timestamp : val;
  approved : bool;
  overridden : bool;
  input_count : nat;
  agree_count : nat
}.

Record t := mk {
  multi_factor_threshold : nat;
  override_enabled : bool;
  override_log : list OverrideRecord;
  execution_log : list ExecutionLogEntry
}.

Definition init : t :=
  {| multi_factor_threshold := 3;
     override_enabled := true;
     override_log := [];
     execution_log := [] |}.

Section WithHash.

(** [hashlib.sha256(s.encode()).hexdigest()] *)
Variable sha256_hex : string -> string.

(** [inputs.values()] needs a mapping. *)
Definition multi_factor_confirm (self : t) (inputs : val) : result bool :=
  match inputs with
  | VFlags d => Ok (multi_factor_threshold self <=? Py.agree_count d)%nat
  | _ => Raise AttributeError
  end.

Definition log_execution (self : t) (signal_packet : gmap string val)
    (approved_ overridden_ : bool) : result unit * t :=
  match getitem signal_packet "id" with
  | Raise e => (Raise e, self)
  | Ok (VStr id) =>
      match getitem signal_packet "timestamp" with
      | Raise e => (Raise e, self)
      | Ok ts =>
          match getitem signal_packet "inputs" with
          | Raise e => (Raise e, self)
          | Ok (VFlags d) =>
              (Ok (),
               {| multi_factor_threshold := multi_factor_threshold self;
                  override_enabled := override_enabled self;
                  override_log := override_log self;
                  execution_log := execution_log self ++
                    [ {| signal_id_hash := sha256_hex id;
                         el_timestamp := ts;
                         approved := approved_;
                         overridden := overridden_;
                         input_count := size d;
                         agree_count := Py.agree_count d |} ] |})
          | Ok (VStr _) => (Raise AttributeError, self)
          | Ok _ => (Raise TypeError, self)
          end
      end
  | Ok _ => (Raise AttributeError, self)
  end.

Definition allow_trade (self : t) (signal_packet : gmap string val)
    : result bool * t :=
  match getitem signal_packet "inputs" with
  | Raise e => (Raise e, self)
  | Ok inputs =>
      match multi_factor_confirm self inputs with
      | Raise e => (Raise e, self)
      | Ok ok =>
          match log_execution self signal_packet ok false with
          | (Raise e, s) => (Raise e, s)
          | (Ok _, s) => (Ok ok, s)
          end
      end
  end.

Definition trigger_override (self : t) (signal_packet : gmap string val)
    (user_id justification : string) : result bool * t :=
  if negb (override_enabled self) then (Ok false, self)
  else
    match getitem signal_packet "id" with
    | Raise e => (Raise e, self)
    | Ok id =>
        match getitem signal_packet "timestamp" with
        | Raise e => (Raise e, self)
        | Ok ts =>
            let s1 :=
              {| multi_factor_threshold := multi_factor_threshold self;
                 override_enabled := override_enabled self;
                 override_log := override_log self ++
                   [ {| or_signal_id := id;
                        or_timestamp := ts;
                        or_user := user_id;
                        or_justification := justification |} ];
                 execution_log := execution_log self |} in
            match log_execution s1 signal_packet true true with
            | (Raise e, s2) => (Raise e, s2)
            | (Ok _, s2) => (Ok true, s2)
            end
        end
    end.

End WithHash.

(** [self.override_log[-5:]] *)
Definition review_override_activity (self : t) : list OverrideRecord :=
  List.skipn (length (override_log self) - 5) (override_log self).

Definition lockdown (self : t) : t :=
  {| multi_factor_threshold := multi_factor_threshold self;
     override_enabled := false;
     override_log := override_log self;
     execution_log := execution_log self |}.

(** The three counts [generate_compliance_summary] serialises. *)
Record ComplianceSummary := {
  executions_logged : nat;
  approved_trades : nat;
  overrides_used : nat
}.

Definition generate_compliance_summary (self : t) : ComplianceSummary :=
  {| executions_logged := length (execution_log self);
     approved_trades := length (List.filter approved (execution_log self));
     overrides_used := length (List.filter overridden (execution_log self)) |}.

(** The state-changing calls of the class, and a run of them. *)
Inductive Call :=
| CallAllowTrade (signal_packet : gmap string val)
| CallTriggerOverride (signal_packet : gmap string val) (user_id justification : string)
| CallLockdown.

Definition call (sha256_hex : string -> string) (self : t) (c : Call) : t :=
  match c with
  | CallAllowTrade p => snd (allow_trade sha256_hex self p)
  | CallTriggerOverride p u j => snd (trigger_override sha256_hex self p u j)
  | CallLockdown => lockdown self
  end.

Definition run (sha256_hex : string -> string) (self : t) (cs : list Call) : t :=
  fold_left (call sha256_hex) cs self.

End SignalIsolationSystem.

(** ** control_logic/trade_coordinator.py *)

Module RateLimiter.

(** Submission instants are readings of [time.time()], in seconds. *)
Record t := mk {
  timestamps : list Q;
  max_packets_per_sec : nat;
  burst_limit : nat
}.

Definition init : t :=
  {| timestamps := []; max_packets_per_sec := 5; burst_limit := 10 |}.

(** [while self.timestamps and now - self.timestamps[0] > 1: popleft()] *)
Fixpoint evict (now : Q) (ts : list Q) : list Q :=
  match ts with
  | [] => []
  | t0 :: rest => if Qlt_bool 1 (now - t0) then evict now rest else ts
  end.

Definition allow (self : t) (now : Q) : bool * t :=
  let ts := evict now (timestamps self ++ [now]) in
  ((length ts <=? burst_limit self)%nat,
   {| timestamps := ts;
      max_packets_per_sec := max_packets_per_sec self;
      burst_limit := burst_limit self |}).

End RateLimiter.

Module PacketSanitizer.
Import Py.

Record t := mk { max_length : nat }.

Definition init : t := {| max_length := 4096 |}.

(** The causes carried by the [ValueError]s this class raises. *)
Inductive ValueError :=
| InvalidTimestampFormat
| TimestampInFuture
| TimestampTooOld
| MalformedNotADictionary
| SuspiciouslyLargeField.

(** What [process_signal] may be handed: a [dict] or anything else. *)
Inductive obj :=
| ODict (d : gmap string val)
| OOther.

Section WithBuiltins.

(** [datetime.strptime(s, "%Y-%m-%dT%H:%M:%SZ")], as microseconds since
    the epoch; [None] when it raises [ValueError]. *)
Variable strptime : string -> option Z.

(** The builtin [str] on a packet value. *)
Variable str : val -> string.

(** [now] is the reading of [datetime.utcnow()]. The statement that
    follows the last [raise] in the source is unreachable. *)
Definition validate_timestamp (self : t) (timestamp_str : string) (now : Z)
    : ValueError + bool :=
  match strptime timestamp_str with
  | None => inl InvalidTimestampFormat
  | Some packet_time =>
      if now <? packet_time then inl TimestampInFuture
      else if 5 * 60 * 1000000 <? now - packet_time then inl TimestampTooOld
      else inr true
  end.

(** Lines 75-80: the type test and the field-length test; the timestamp is
    not looked at here. *)
Definition sanitize (self : t) (packet : obj) : ValueError + bool :=
  match packet with
  | OOther => inl MalformedNotADictionary
  | ODict d =>
      if existsb (fun kv => (max_length self <? String.length (str (snd kv)))%nat)
                 (map_to_list d)
      then inl SuspiciouslyLargeField
      else inr true
  end.

End WithBuiltins.

End PacketSanitizer.

Module TradeCoordinator.
Import Py.

Record SplitEntry := {
  split_symbol : string;
  split_date : string;
  split_factor : Q
}.

Record SpinoffEntry := {
  spinoff_parent : string;
  spinoff_child : string;
  spinoff_date : string
}.

Inductive Reason :=
| ReasonEmpty
| ReasonSISRejected
| ReasonREP (m : RiskExecutionProtocol.ValidateMsg).

Inductive Verdict := APPROVED | REJECTED.

Inductive MarginRisk :=
| MarginUnset
| MarginLowCashEquity
| MarginModerateToHigh
| MarginIneligible
| MarginLow.

Record Decision := {
  signal_id : val;
  timestamp : val;
  inputs : val;
  confidence_tag : val;
  risk_pct : val;
  suitable : bool;
  permitted : bool;
  tax_notes : list string;
  margin_risk : MarginRisk;
  split_adjusted : val;
  spinoff_event : val;
  final_decision : Verdict;
  reason : Reason
}.

Record t := mk {
  sis : SignalIsolationSystem.t;
  rep : RiskExecutionProtocol.t;
  decision_log : list Decision;
  symbol_registry : gmap string string;
  split_log : list SplitEntry;
  spinoff_log : list SpinoffEntry;
  ratelimiter : RateLimiter.t;
  sanitizer : PacketSanitizer.t;
  anomaly_cooldown : Q;
  last_safe_trade_time : Q
}.

Definition init (sis0 : SignalIsolationSystem.t) (rep0 : RiskExecutionProtocol.t) : t :=
  {| sis := sis0;
     rep := rep0;
     decision_log := [];
     symbol_registry := ∅;
     split_log := [];
     spinoff_log := [];
     ratelimiter := RateLimiter.init;
     sanitizer := PacketSanitizer.init;
     anomaly_cooldown := 9041 # 100;
     last_safe_trade_time := 0 |}.

Definition register_symbol_change (self : t) (old_symbol new_symbol : string) : t :=
  {| sis := sis self; rep := rep self; decision_log := decision_log self;
     symbol_registry := <[old_symbol := new_symbol]> (symbol_registry self);
     split_log := split_log self; spinoff_log := spinoff_log self;
     ratelimiter := ratelimiter self; sanitizer := sanitizer self;
     anomaly_cooldown := anomaly_cooldown self;
     last_safe_trade_time := last_safe_trade_time self |}.

Definition register_split (self : t) (symbol date_str : string) (factor : Q) : t :=
  {| sis := sis self; rep := rep self; decision_log := decision_log self;
     symbol_registry := symbol_registry self;
     split_log := split_log self ++
       [ {| split_symbol := symbol; split_date := date_str; split_factor := factor |} ];
     spinoff_log := spinoff_log self;
     ratelimiter := ratelimiter self; sanitizer := sanitizer self;
     anomaly_cooldown := anomaly_cooldown self;
     last_safe_trade_time := last_safe_trade_time self |}.

Definition register_spinoff (self : t) (parent_symbol child_symbol date_str : string) : t :=
  {| sis := sis self; rep := rep self; decision_log := decision_log self;
     symbol_registry := symbol_registry self;
     split_log := split_log self;
     spinoff_log := spinoff_log self ++
       [ {| spinoff_parent := parent_symbol; spinoff_child := child_symbol;
            spinoff_date := date_str |} ];
     ratelimiter := ratelimiter self; sanitizer := sanitizer self;
     anomaly_cooldown := anomaly_cooldown self;
     last_safe_trade_time := last_safe_trade_time self |}.

(** [entry['symbol'] == symbol and entry['date'] <= date_str]; dates are
    strings and compare lexicographically. *)
Definition split_applies (symbol date_str : string) (entry : SplitEntry) : bool :=
  String.eqb (split_symbol entry) symbol && String.leb (split_date entry) date_str.

(** The loop over [self.split_log], returning at the first hit. *)
Fixpoint first_split_factor (log : list SplitEntry) (symbol date_str : string) : Q :=
  match log with
  | [] => 1
  | entry :: rest =>
      if split_applies symbol date_str entry then split_factor entry
      else first_split_factor rest symbol date_str
  end.

Definition get_split_factor (self : t) (symbol date_str : string) : Q :=
  first_split_factor (split_log self) symbol date_str.

(** The lookup as the specification words it, for comparison with the
    loop above: [entry] is a registered split of [symbol] dated at or
    before [date_str], and no such split is dated later. *)
Definition most_recent_applicable (log : list SplitEntry) (symbol date_str : string)
    (entry : SplitEntry) : Prop :=
  In entry log /\
  split_applies symbol date_str entry = true /\
  forall other, In other log -> split_applies symbol date_str other = true ->
    String.leb (split_date other) (split_date entry) = true.

(** The splits of [symbol] were registered newest first. *)
Fixpoint newest_first (symbol : string) (log : list SplitEntry) : Prop :=
  match log with
  | [] => True
  | entry :: rest =>
      (split_symbol entry = symbol ->
       forall other, In other rest -> split_symbol other = symbol ->
         String.leb (split_date other) (split_date entry) = true) /\
      newest_first symbol rest
  end.

Definition list_spinoffs_for (self : t) (symbol : string) : list string :=
  List.map spinoff_child
    (List.filter (fun s => String.eqb (spinoff_parent s) symbol) (spinoff_log self)).

(** [self.symbol_registry.get(input_symbol, input_symbol)]; a mapping is
    unhashable and cannot be looked up. *)
Definition get_current_symbol (self : t) (input_symbol : val) : result val :=
  match input_symbol with
  | VStr s => Ok (match symbol_registry self !! s with Some n => VStr n | None => input_symbol end)
  | VFlags _ => Raise TypeError
  | _ => Ok input_symbol
  end.

(** [s.split('T')[0]] *)
Fixpoint before_T (s : string) : string :=
  match s with
  | EmptyString => EmptyString
  | String c s' => if Ascii.eqb c "T" then EmptyString else String c (before_T s')
  end.

Inductive ErrorKind :=
| AnomalyThrottleActive (wait : Q)
| RateLimitExceeded
| PacketRejected (cause : PacketSanitizer.ValueError).

(** What a call of [process_signal] hands back: an [{'error': ...}]
    reply, a decision, or an exception that escapes. *)
Inductive Outcome :=
| ErrorReply (e : ErrorKind)
| DecisionReply (d : Decision)
| Escapes (e : Exn).

(** [rep.validate_trade_request] on untyped arguments: [.lower()] needs a
    [str] and [>] a number; a frozen protocol looks at neither. *)
Definition validate_untyped (r : RiskExecutionProtocol.t) (tag size : val)
    : result (bool * RiskExecutionProtocol.ValidateMsg) :=
  if RiskExecutionProtocol.execution_frozen r
  then Ok (RiskExecutionProtocol.validate_trade_request r "" 0)
  else
    match tag with
    | VStr c =>
        match as_num size with
        | Ok p => Ok (RiskExecutionProtocol.validate_trade_request r c p)
        | Raise e => Raise e
        end
    | _ => Raise AttributeError
    end.

Definition classify_margin (margin_enabled involves_short_option : bool) : MarginRisk :=
  if margin_enabled && negb involves_short_option then MarginLowCashEquity
  else if margin_enabled && involves_short_option then MarginModerateToHigh
  else if negb margin_enabled && involves_short_option then MarginIneligible
  else MarginLow.

Definition with_ratelimiter (self : t) (rl : RateLimiter.t) : t :=
  {| sis := sis self; rep := rep self; decision_log := decision_log self;
     symbol_registry := symbol_registry self;
     split_log := split_log self; spinoff_log := spinoff_log self;
     ratelimiter := rl; sanitizer := sanitizer self;
     anomaly_cooldown := anomaly_cooldown self;
     last_safe_trade_time := last_safe_trade_time self |}.

Definition with_sis (self : t) (s : SignalIsolationSystem.t) : t :=
  {| sis := s; rep := rep self; decision_log := decision_log self;
     symbol_registry := symbol_registry self;
     split_log := split_log self; spinoff_log := spinoff_log self;
     ratelimiter := ratelimiter self; sanitizer := sanitizer self;
     anomaly_cooldown := anomaly_cooldown self;
     last_safe_trade_time := last_safe_trade_time self |}.

Definition with_last_safe_trade_time (self : t) (now : Q) : t :=
  {| sis := sis self; rep := rep self; decision_log := decision_log self;
     symbol_registry := symbol_registry self;
     split_log := split_log self; spinoff_log := spinoff_log self;
     ratelimiter := ratelimiter self; sanitizer := sanitizer self;
     anomaly_cooldown := anomaly_cooldown self;
     last_safe_trade_time := now |}.

(** [self.decision_log.append(decision)] *)
Definition log_decision (self : t) (d : Decision) : t :=
  {| sis := sis self; rep := rep self; decision_log := decision_log self ++ [d];
     symbol_registry := symbol_registry self;
     split_log := split_log self; spinoff_log := spinoff_log self;
     ratelimiter := ratelimiter self; sanitizer := sanitizer self;
     anomaly_cooldown := anomaly_cooldown self;
     last_safe_trade_time := last_safe_trade_time self |}.

(** Line 123: [round(self.anomaly_cooldown - (now - self.last_safe_trade_time), 2)],
    the wait the throttle reply reports. *)
Definition reported_wait (self : t) (now : Q) : Q :=
  round2 (F64.sub (F64.round (anomaly_cooldown self))
                  (F64.sub (F64.round now) (F64.round (last_safe_trade_time self)))).

Section WithCollaborators.

Variable str : val -> string.
Variable sha256_hex : string -> string.

(** [self.tax_filter.evaluate_trade_tax_notes(symbol, date, holding_days,
    realized)], an external pure function. *)
Variable evaluate_trade_tax_notes : val -> string -> val -> val -> list string.

(** Lines 133-189: the packet has passed the sanitizer. The block under
    [if not allowed_by_sis:] is read as one suite: set the reason, stamp
    [last_safe_trade_time], append the decision, return it. *)
Definition decide_signal (self : t) (now : Q) (signal_packet : gmap string val)
    : Outcome * t :=
  match getitem signal_packet "id" with
  | Raise e => (Escapes e, self)
  | Ok id =>
  match getitem signal_packet "timestamp" with
  | Raise e => (Escapes e, self)
  | Ok ts =>
  match getitem signal_packet "inputs" with
  | Raise e => (Escapes e, self)
  | Ok ins =>
  let tag := get signal_packet "confidence_tag" (VStr "unclassified") in
  let risk := get signal_packet "risk_pct" (VFloat (1 # 100)) in
  let decision0 :=
    {| signal_id := id; timestamp := ts; inputs := ins;
       confidence_tag := tag; risk_pct := risk;
       suitable := false; permitted := false;
       tax_notes := []; margin_risk := MarginUnset;
       split_adjusted := get signal_packet "split_adjusted" (VBool false);
       spinoff_event := get signal_packet "spinoff_event" (VBool false);
       final_decision := REJECTED; reason := ReasonEmpty |} in
  match SignalIsolationSystem.allow_trade sha256_hex (sis self) signal_packet with
  | (Raise e, sis1) => (Escapes e, with_sis self sis1)
  | (Ok allowed_by_sis, sis1) =>
  let s1 := with_sis self sis1 in
  if negb allowed_by_sis then
    let decision :=
      {| signal_id := id; timestamp := ts; inputs := ins;
         confidence_tag := tag; risk_pct := risk;
         suitable := allowed_by_sis; permitted := false;
         tax_notes := []; margin_risk := MarginUnset;
         split_adjusted := split_adjusted decision0;
         spinoff_event := spinoff_event decision0;
         final_decision := REJECTED; reason := ReasonSISRejected |} in
    (DecisionReply decision, log_decision (with_last_safe_trade_time s1 now) decision)
  else
  match validate_untyped (rep s1) tag risk with
  | Raise e => (Escapes e, s1)
  | Ok (rep_ok, why) =>
  match get_current_symbol s1 (get signal_packet "symbol" (VStr "UNKNOWN")) with
  | Raise e => (Escapes e, s1)
  | Ok current_symbol =>
  match ts with
  | VStr ts_str =>
      let trade_date_str := before_T ts_str in
      let holding_days := get signal_packet "holding_days" (VInt 0) in
      let realized := get signal_packet "realized" (VBool false) in
      let notes :=
        evaluate_trade_tax_notes current_symbol trade_date_str holding_days realized in
      let margin_enabled := truthy (get signal_packet "margin_enabled" (VBool false)) in
      let involves_short_option :=
        truthy (get signal_packet "involves_short_option" (VBool false)) in
      let decision :=
        {| signal_id := id; timestamp := ts; inputs := ins;
           confidence_tag := tag; risk_pct := risk;
           suitable := allowed_by_sis; permitted := rep_ok;
           tax_notes := notes;
           margin_risk := classify_margin margin_enabled involves_short_option;
           split_adjusted := split_adjusted decision0;
           spinoff_event := spinoff_event decision0;
           final_decision := if allowed_by_sis && rep_ok then APPROVED else REJECTED;
           reason := ReasonREP why |} in
      (DecisionReply decision, log_decision s1 decision)
  | _ => (Escapes AttributeError, s1)
  end end end end end end end.

(** [now] is the reading of [time.time()] on line 120 and [now_rl] the one
    inside [RateLimiter.allow]. *)
Definition process_signal (self : t) (now now_rl : Q) (signal_packet : PacketSanitizer.obj)
    : Outcome * t :=
  if Qlt_bool (now - last_safe_trade_time self) (anomaly_cooldown self)
  then (ErrorReply (AnomalyThrottleActive (reported_wait self now)), self)
  else
    let (ok, rl) := RateLimiter.allow (ratelimiter self) now_rl in
    let s1 := with_ratelimiter self rl in
    if negb ok then (ErrorReply RateLimitExceeded, s1)
    else
      match PacketSanitizer.sanitize str (sanitizer s1) signal_packet with
      | inl cause => (ErrorReply (PacketRejected cause), s1)
      | inr _ =>
          match signal_packet with
          | PacketSanitizer.ODict d => decide_signal s1 now d
          | PacketSanitizer.OOther => (Escapes TypeError, s1)
          end
      end.

End WithCollaborators.

(** [self.decision_log[-n:]] for [n >= 0]; [[-0:]] is the whole list. *)
Definition recent_decisions (self : t) (n : nat) : list Decision :=
  match n with
  | O => decision_log self
  | S _ => List.skipn (length (decision_log self) - n) (decision_log self)
  end.

(** [get_decision_by_id] for a string id: the scan of
    [reversed(self.decision_log)]; only a [str] equals a [str]. *)
Definition id_matches (signal_id_ : string) (entry : Decision) : bool :=
  match signal_id entry with
  | VStr s => String.eqb s signal_id_
  | _ => false
  end.

Definition get_decision_by_id (self : t) (signal_id_ : string) : option Decision :=
  List.find (id_matches signal_id_) (List.rev (decision_log self)).

End TradeCoordinator.

(** ** helpers/vix_whipsaw_filter.py *)

Module VixWhipsawFilter.

(** Instants ([current_date], the index of the series) are counted in
    hours, so [timedelta(days=1)] is 24 and [timedelta(hours=72)] is 72. *)
Definition days (n : Z) : Z := 24 * n.

(** The keys of the [state] dict; an absent key is [None]. *)
Record State := mk {
  cooldown_until : option Z;
  observation_day : option Z;
  last_trigger_day : option Z;
  red_light_until : option Z;
  red_count : option Z;
  observe_red_on : option Z;
  red_watch : option bool;
  volatility_floor : option Q
}.

Definition empty : State := mk None None None None None None None None.

Inductive Regime :=
| normal
| cooling_triggered
| cooldown_active
| red_watch_triggered
| red_light_active
| revert_to_strict.

(** The result of dividing two [float64] values: the quotient rounded to
    binary64; a zero divisor gives an infinity or a NaN instead of
    raising. *)
Inductive f64 :=
| Fin (q : Q)
| PosInf
| NegInf
| NaN.

Definition fdiv (a b : Q) : f64 :=
  if Qeq_bool b 0 then
    if Qlt_bool 0 a then PosInf else if Qlt_bool a 0 then NegInf else NaN
  else Fin (F64.div a b).

(** [x > c] and [x >= c] for a decimal literal [c] *)
Definition fgt (x : f64) (c : Q) : bool :=
  match x with Fin q => Qlt_bool (F64.round c) q | PosInf => true | _ => false end.
Definition fge (x : f64) (c : Q) : bool :=
  match x with Fin q => Qle_bool (F64.round c) q | PosInf => true | _ => false end.

(** [(a - b) / base] on closes, as the code computes it: the difference
    rounded, then the quotient rounded. *)
Definition change_pct (a b base : Q) : f64 :=
  fdiv (F64.sub (F64.round a) (F64.round b)) (F64.round base).

(** The series: (date, close) rows in index order, dates increasing. *)
Definition Series := list (Z * Q).

(** [vix_data.loc[d]] *)
Definition loc (vix_data : Series) (d : Z) : option Q :=
  option_map snd (List.find (fun row => fst row =? d) vix_data).

(** [vix_data.index.get_loc(d)] *)
Fixpoint get_loc (vix_data : Series) (d : Z) : option nat :=
  match vix_data with
  | [] => None
  | row :: rest => if fst row =? d then Some O else option_map S (get_loc rest d)
  end.

(** [vix_data[a:b]]: label slice, both ends included. *)
Definition window (vix_data : Series) (a b : Z) : list Q :=
  List.map snd (List.filter (fun row => (a <=? fst row) && (fst row <=? b)) vix_data).

(** [min(a, b)] of the builtin: [b] only when it is smaller. *)
Definition min2 (a b : Q) : Q := if Qlt_bool b a then b else a.

(** [recent_window.min()] *)
Definition series_min (w : list Q) (dflt : Q) : Q :=
  match w with
  | [] => dflt
  | x :: rest => fold_left (fun m y => if Qlt_bool y m then y else m) rest x
  end.

Definition is_active (until : option Z) (current_date : Z) : bool :=
  match until with
  | Some u => current_date <=? u
  | None => false
  end.

Definition armed_for (day : option Z) (current_date : Z) : bool :=
  match day with
  | Some d => d =? current_date
  | None => false
  end.

(** Lines 82-87: [idx = get_loc(current_date)], and for [idx > 0] the
    close at [index[idx - 1]]; [None] stands for [idx == 0]. *)
Definition previous_close (vix_data : Series) (current_date : Z) : option Q :=
  match get_loc vix_data current_date with
  | None | Some O => None
  | Some (S idx') =>
      match nth_error vix_data idx' with
      | None => None
      | Some (prev_date, _) => loc vix_data prev_date
      end
  end.

(** [(prev_vix - today_vix) / prev_vix > pct], the test of both drop
    triggers. *)
Definition drop_exceeds (prev_vix today_vix pct : Q) : bool :=
  fgt (change_pct prev_vix today_vix prev_vix) pct.

(** [(today_vix - prev_vix) / prev_vix >= pct], the test of both
    observations. *)
Definition rebound_at_least (prev_vix today_vix pct : Q) : bool :=
  fge (change_pct today_vix prev_vix prev_vix) pct.

Definition vix_whipsaw_filter (current_date : Z) (vix_data : Series) (state : State)
    : Regime * State :=
  match loc vix_data current_date with
  | None => (normal, state)
  | Some today_vix =>
  if is_active (red_light_until state) current_date then
    let recent_window := window vix_data (current_date - days 21) current_date in
    let three_week_low := series_min recent_window today_vix in
    let floor := min2 three_week_low 38 in
    if Qlt_bool today_vix floor then
      (normal,
       {| cooldown_until := cooldown_until state;
          observation_day := observation_day state;
          last_trigger_day := last_trigger_day state;
          red_light_until := None;
          red_count := red_count state;
          observe_red_on := observe_red_on state;
          red_watch := red_watch state;
          volatility_floor := None |})
    else
      (red_light_active,
       {| cooldown_until := cooldown_until state;
          observation_day := observation_day state;
          last_trigger_day := last_trigger_day state;
          red_light_until := red_light_until state;
          red_count := red_count state;
          observe_red_on := observe_red_on state;
          red_watch := red_watch state;
          volatility_floor := Some floor |})
  else if is_active (cooldown_until state) current_date then (cooldown_active, state)
  else
  match previous_close vix_data current_date with
  | None => (normal, state)
  | Some prev_vix =>
  if Qlt_bool 30 (F64.round prev_vix) && drop_exceeds prev_vix today_vix (8 # 100) then
    (cooling_triggered,
     {| cooldown_until := cooldown_until state;
        observation_day := Some (current_date + days 1);
        last_trigger_day := Some current_date;
        red_light_until := red_light_until state;
        red_count := red_count state;
        observe_red_on := observe_red_on state;
        red_watch := red_watch state;
        volatility_floor := volatility_floor state |})
  else if drop_exceeds prev_vix today_vix (7 # 100) then
    (red_watch_triggered,
     {| cooldown_until := cooldown_until state;
        observation_day := observation_day state;
        last_trigger_day := last_trigger_day state;
        red_light_until := red_light_until state;
        red_count := red_count state;
        observe_red_on := Some (current_date + days 1);
        red_watch := Some true;
        volatility_floor := volatility_floor state |})
  else if armed_for (observation_day state) current_date then
    if rebound_at_least prev_vix today_vix (45 # 1000) then
      (revert_to_strict,
       {| cooldown_until := Some (current_date + 72);
          observation_day := None;
          last_trigger_day := last_trigger_day state;
          red_light_until := red_light_until state;
          red_count := red_count state;
          observe_red_on := observe_red_on state;
          red_watch := red_watch state;
          volatility_floor := volatility_floor state |})
    else
      (normal,
       {| cooldown_until := cooldown_until state;
          observation_day := None;
          last_trigger_day := last_trigger_day state;
          red_light_until := red_light_until state;
          red_count := red_count state;
          observe_red_on := observe_red_on state;
          red_watch := red_watch state;
          volatility_floor := volatility_floor state |})
  else if armed_for (observe_red_on state) current_date
          && default false (red_watch state) then
    if rebound_at_least prev_vix today_vix (4 # 100) then
      let count := default 0 (red_count state) + 1 in
      let cooldown_hours := if count =? 1 then 72 else 144 in
      (red_light_active,
       {| cooldown_until := cooldown_until state;
          observation_day := observation_day state;
          last_trigger_day := last_trigger_day state;
          red_light_until := Some (current_date + cooldown_hours);
          red_count := Some count;
          observe_red_on := None;
          red_watch := Some false;
          volatility_floor := volatility_floor state |})
    else
      (normal,
       {| cooldown_until := cooldown_until state;
          observation_day := observation_day state;
          last_trigger_day := last_trigger_day state;
          red_light_until := red_light_until state;
          red_count := red_count state;
          observe_red_on := None;
          red_watch := Some false;
          volatility_floor := volatility_floor state |})
  else (normal, state)
  end end.

End VixWhipsawFilter.

(** ** enforcer/enforce_allocation_rules_fullSet.py *)

Module AllocationRules.
Import Py.

(** [bin_weights]: bin name and weight, in the dict's iteration order. *)
Definition BinWeights := list (string * Q).

Record BinMeta := {
  underlying : option string;
  bin_type : option string
}.

(** The exact sum of the weights, left to right. *)
Definition total (bin_weights : BinWeights) : Q :=
  fold_left Qplus (List.map snd bin_weights) 0%Q.

(** The loop [total += allocation] of rule 5 from [0.0]: left to right,
    each addition rounded to binary64. *)
Definition float_total (bin_weights : BinWeights) : Q :=
  fold_left (fun acc w => F64.add acc (F64.round w)) (List.map snd bin_weights) 0%Q.


(** from 3.12 on the rounding errors of the additions are collected in a
    compensation term [c], which is added at the end when it is not zero
    (Neumaier's summation). *)
Definition sum_compensated (values : list Q) : Q :=
  let step (st : Q * Q) (w : Q) : Q * Q :=
    let x := F64.round w in
    let t := F64.add (fst st) x in
    let err :=
      if Qle_bool (Qabs x) (Qabs (fst st))
      then F64.add (F64.sub (fst st) t) x
      else F64.add (F64.sub x t) (fst st) in
    (t, F64.add (snd st) err) in
  let st := fold_left step values (0%Q, 0%Q) in
  if Qeq_bool (snd st) 0 then fst st else F64.add (fst st) (snd st).

(** [for bin_name in bin_weights: bin_weights[bin_name] *= scaling_factor],
    each product rounded to binary64. *)
Definition scale (scaling_factor : Q) (bin_weights : BinWeights) : BinWeights :=
  List.map (fun kv => (fst kv, F64.mul (F64.round (snd kv)) scaling_factor)) bin_weights.

(** Rules 1 and 2 and the driver take the builtin [sum] as [fsum], so that
    what is proved of them holds for either variant. *)
Section WithBuiltinSum.

Variable fsum : list Q -> Q.

(** The shared body of rules 1 and 2, given [max_allowed] as already
    computed; dividing by a zero total raises. *)
Definition scale_to (max_allowed : Q) (bin_weights : BinWeights) : result BinWeights :=
  let current_total := fsum (List.map snd bin_weights) in
  if Qlt_bool max_allowed current_total then
    if Qeq_bool current_total 0 then Raise ZeroDivisionError
    else Ok (scale (F64.div max_allowed current_total) bin_weights)
  else Ok bin_weights.

Definition enforce_liquidity_reserve_only (bin_weights : BinWeights)
    (constraints : gmap string Q) : result BinWeights :=
  match constraints !! "liquidity_reserve" with
  | None => Raise (KeyError "liquidity_reserve")
  | Some liquidity_reserve =>
      scale_to (F64.sub 1 (F64.round liquidity_reserve)) bin_weights
  end.

Definition enforce_manual_reserve_only (bin_weights : BinWeights)
    (constraints : gmap string Q) : result BinWeights :=
  match constraints !! "manual_trading_allocation" with
  | None => Raise (KeyError "manual_trading_allocation")
  | Some manual_reserve => scale_to (F64.sub 1 (F64.round manual_reserve)) bin_weights
  end.

Definition enforce_per_bin_maximum (bin_weights : BinWeights)
    (constraints : gmap string Q) : result (BinWeights * list (string * Q)) :=
  match constraints !! "max_bin_weight" with
  | None => Raise (KeyError "max_bin_weight")
  | Some max_bin =>
      Ok (List.map (fun kv => if Qlt_bool max_bin (snd kv) then (fst kv, max_bin) else kv)
                   bin_weights,
          List.filter (fun kv => Qlt_bool max_bin (snd kv)) bin_weights)
  end.

Inductive Violation :=
| TooManyBinsActive
| BinOverlapExceedsThreshold
| FuturesAllocationExceedsMaximum.

Definition enforce_bin_count_and_overlap (bin_weights : BinWeights)
    (bin_metadata : gmap string BinMeta) : bool * option Violation :=
  let max_bins_allowed := 25%nat in
  let overlap_threshold := 20%nat in
  let active_bins := List.map fst bin_weights in
  let underlyings :=
    omap (fun bin_name => bin_metadata !! bin_name ≫= underlying) active_bins in
  let unique_underlyings := remove_dups underlyings in
  if (max_bins_allowed <? length active_bins)%nat then (false, Some TooManyBinsActive)
  else if (length unique_underlyings <? length active_bins)%nat
          && (overlap_threshold <? length active_bins)%nat
  then (false, Some BinOverlapExceedsThreshold)
  else (true, None).

Definition is_futures (bin_metadata : gmap string BinMeta) (bin_name : string) : bool :=
  match bin_metadata !! bin_name ≫= bin_type with
  | Some ty => String.eqb ty "futures"
  | None => false
  end.

Definition enforce_futures_allocation (bin_weights : BinWeights)
    (bin_metadata : gmap string BinMeta) : bool * option Violation :=
  let max_futures_alloc := F64.round (5 # 100) in
  let total_futures_alloc :=
    float_total (List.filter (fun kv => is_futures bin_metadata (fst kv)) bin_weights) in
  if Qlt_bool max_futures_alloc total_futures_alloc
  then (false, Some FuturesAllocationExceedsMaximum)
  else (true, None).

(** The driver: rules 1 to 3 rewrite the weights, rules 4 and 5 raise. *)
Definition enforce_allocation_rules (bin_weights : BinWeights)
    (constraints : gmap string Q) (bin_metadata : gmap string BinMeta)
    : result BinWeights :=
  match enforce_liquidity_reserve_only bin_weights constraints with
  | Raise e => Raise e
  | Ok bw1 =>
  match enforce_manual_reserve_only bw1 constraints with
  | Raise e => Raise e
  | Ok bw2 =>
  match enforce_per_bin_maximum bw2 constraints with
  | Raise e => Raise e
  | Ok (bw3, over_caps) =>
      if negb (fst (enforce_bin_count_and_overlap bw3 bin_metadata))
      then Raise (ValueError "Bin overlap violation")
      else if negb (fst (enforce_futures_allocation bw3 bin_metadata))
      then Raise (ValueError "Futures exposure violation")
      else Ok bw3
  end end end.

End WithBuiltinSum.

End AllocationRules.

(** * Properties *)

(** ** Rational comparisons *)

Lemma Qlt_bool_iff (a b : Q) : Qlt_bool a b = true <-> (a < b)%Q.
Proof.
  unfold Qlt_bool. rewrite negb_true_iff. split.
  - intros H. apply Qnot_le_lt. intros Hle.
    apply Qle_bool_iff in Hle. congruence.
  - intros H. destruct (Qle_bool b a) eqn:E; [|reflexivity].
    apply Qle_bool_iff in E. exfalso. exact (Qlt_not_le _ _ H E).
Qed.

Lemma Qlt_bool_false_iff (a b : Q) : Qlt_bool a b = false <-> (b <= a)%Q.
Proof.
  unfold Qlt_bool. rewrite negb_false_iff. apply Qle_bool_iff.
Qed.

(** ** Substrings *)

Section Substrings.

Lemma prefix_append (p s : string) : String.prefix p (p +:+ s) = true.
Proof.
  induction p as [|c p IH]; simpl.
  - destruct s; reflexivity.
  - destruct (ascii_dec c c); [exact IH | congruence].
Qed.

Lemma contains_prefix (sub s : string) :
  String.prefix sub s = true -> PyStr.contains sub s = true.
Proof.
  intros H. destruct s; cbn [PyStr.contains]; rewrite H; reflexivity.
Qed.

Lemma contains_append (sub a b : string) :
  PyStr.contains sub (a +:+ (sub +:+ b)) = true.
Proof.
  induction a as [|c a IH].
  - change (PyStr.contains sub (sub +:+ b) = true).
    apply contains_prefix, prefix_append.
  - change (PyStr.contains sub (String c (a +:+ (sub +:+ b))) = true).
    cbn [PyStr.contains]. rewrite IH. apply orb_true_r.
Qed.

Lemma lower_append (a b : string) :
  PyStr.lower (a +:+ b) = PyStr.lower a +:+ PyStr.lower b.
Proof.
  induction a as [|c a IH]; simpl; [reflexivity | now rewrite IH].
Qed.

(** A tag that contains ["high"] still does after [.lower()]. *)
Lemma contains_high_lower (a b : string) :
  PyStr.contains "high" (PyStr.lower (a +:+ ("high" +:+ b))) = true.
Proof.
  rewrite !lower_append. apply contains_append.
Qed.

End Substrings.

(** ** RiskExecutionProtocol *)

Section RiskFacts.
Import RiskExecutionProtocol.

Lemma init_configured (equity : Q) : configured (init equity).
Proof. repeat split. Qed.

Lemma record_losses_limits (self : t) (now : Z) (pnl : Q) :
  let s' := snd (record_losses self now pnl) in
  max_daily_drawdown_pct s' = max_daily_drawdown_pct self /\
  max_trade_drawdown_pct s' = max_trade_drawdown_pct self /\
  throttle_trigger_pct s' = throttle_trigger_pct self.
Proof.
  unfold record_losses.
  repeat match goal with |- context [if ?c then _ else _] => destruct c end;
    simpl; auto.
Qed.

Lemma record_trade_limits (self : t) now pnl size ty op cls :
  let s' := snd (record_trade self now pnl size ty op cls) in
  max_daily_drawdown_pct s' = max_daily_drawdown_pct self /\
  max_trade_drawdown_pct s' = max_trade_drawdown_pct self /\
  throttle_trigger_pct s' = throttle_trigger_pct self.
Proof.
  unfold record_trade.
  destruct (execution_frozen self && is_primary_entry ty op); [simpl; auto|].
  destruct (is_primary_entry ty op); [|apply record_losses_limits].
  match goal with |- context [if ?c then _ else _] => destruct c end; [simpl; auto|].
  match goal with |- context [if ?c then _ else _] => destruct c end; [simpl; auto|].
  apply (record_losses_limits (set_timestamps self _)).
Qed.

(** The configured limits are an invariant of every call. *)
Lemma call_configured (self : t) (c : Call) : configured self -> configured (call self c).
Proof.
  intros (H1 & H2 & H3). destruct c; simpl; [|repeat split; assumption..].
  destruct (record_trade_limits self now pnl_pct position_size_pct
              trade_type operation_type classification) as (E1 & E2 & E3).
  repeat split; congruence.
Qed.

Lemma record_losses_keeps_frozen (self : t) now pnl :
  execution_frozen self = true ->
  execution_frozen (snd (record_losses self now pnl)) = true.
Proof.
  intros H. unfold record_losses.
  repeat match goal with |- context [if ?c then _ else _] => destruct c end;
    simpl; auto.
Qed.

Lemma record_trade_keeps_frozen (self : t) now pnl size ty op cls :
  execution_frozen self = true ->
  execution_frozen (snd (record_trade self now pnl size ty op cls)) = true.
Proof.
  intros H. unfold record_trade. rewrite H. simpl.
  destruct (is_primary_entry ty op); [exact H|].
  now apply record_losses_keeps_frozen.
Qed.

Lemma call_keeps_frozen (self : t) (c : Call) :
  execution_frozen self = true -> execution_frozen (call self c) = true.
Proof.
  destruct c; simpl; auto using record_trade_keeps_frozen.
Qed.

Lemma run_keeps_frozen (cs : list Call) : forall self,
  execution_frozen self = true -> execution_frozen (run self cs) = true.
Proof.
  induction cs as [|c cs IH]; intros self H; simpl; [exact H|].
  apply IH. now apply call_keeps_frozen.
Qed.

Lemma record_losses_big_loss (self : t) now (pnl : Q) :
  (pnl < - max_trade_drawdown_pct self)%Q ->
  execution_frozen (snd (record_losses self now pnl)) = true.
Proof.
  intros H. unfold record_losses.
  replace (Qlt_bool pnl (- max_trade_drawdown_pct (book self now pnl))) with true;
    [reflexivity|].
  symmetry. apply Qlt_bool_iff. exact H.
Qed.

Lemma record_losses_throttle (self : t) now pnl :
  let r := record_losses self now pnl in
  (fst r = TradeRecorded ->
   (throttle_trigger_pct self < Qabs (daily_loss_total (snd r)))%Q ->
   throttle_mode (snd r) = true) /\
  (fst r <> TradeRecorded ->
   execution_frozen (snd r) = true /\ throttle_mode (snd r) = throttle_mode self) /\
  (throttle_mode self = true -> throttle_mode (snd r) = true).
Proof.
  unfold record_losses.
  destruct (Qlt_bool pnl _) eqn:E1; [simpl; repeat split; auto; discriminate|].
  destruct (Qlt_bool (max_daily_drawdown_pct _) _) eqn:E2;
    [simpl; repeat split; auto; discriminate|].
  destruct (Qlt_bool (throttle_trigger_pct _) _) eqn:E3.
  - simpl. repeat split; auto; congruence.
  - simpl. repeat split; auto; try congruence.
    intros _ H. apply Qlt_bool_iff in H. simpl in E3. congruence.
Qed.

(** C2: once [execution_frozen] is true, [record_trade] with
    [trade_type="entry"] and [operation_type="primary"] returns the
    frozen rejection and changes nothing: the returned object is the one
    passed in, so [trade_history], [trade_timestamps] and
    [daily_loss_total] are as before. *)
Theorem record_trade_frozen_primary_entry (self : t) (now : Z) (pnl size : Q)
    (cls : string) :
  execution_frozen self = true ->
  let r := record_trade self now pnl size "entry" "primary" cls in
  fst r = FrozenNoPrimaryEntries /\
  snd r = self /\
  trade_history (snd r) = trade_history self /\
  trade_timestamps (snd r) = trade_timestamps self /\
  daily_loss_total (snd r) = daily_loss_total self.
Proof.
  intros H. unfold record_trade. rewrite H. simpl. auto.
Qed.

Lemma record_trade_frozen_primary_entry_witness :
  let self := set_frozen (init 10000) false in
  let r := record_trade self 0 (1 # 100) (1 # 10) "entry" "primary" "high" in
  execution_frozen self = true /\
  fst r = FrozenNoPrimaryEntries /\
  snd r = self /\
  trade_history (snd r) = trade_history self /\
  trade_timestamps (snd r) = trade_timestamps self /\
  daily_loss_total (snd r) = daily_loss_total self.
Proof.
  split; [reflexivity|].
  apply (record_trade_frozen_primary_entry (set_frozen (init 10000) false)).
  reflexivity.
Defined.

(** C4 (as the code has it): a call that records the trade without
    tripping a freeze leaves [throttle_mode] true whenever the absolute
    cumulative daily loss then exceeds 2.5%; every other call (a freeze or
    a rejection) returns before the throttle check and leaves
    [throttle_mode] as it was; a throttle flag set earlier is never
    cleared by [record_trade], so it can stand beside a later freeze. *)
Theorem record_trade_throttle_after_recording (self : t) now pnl size ty op cls :
  configured self ->
  let r := record_trade self now pnl size ty op cls in
  (fst r = TradeRecorded ->
   (25 # 1000 < Qabs (daily_loss_total (snd r)))%Q ->
   throttle_mode (snd r) = true) /\
  (fst r <> TradeRecorded -> throttle_mode (snd r) = throttle_mode self) /\
  (throttle_mode self = true -> throttle_mode (snd r) = true).
Proof.
  intros (_ & _ & H3). unfold record_trade.
  destruct (execution_frozen self && is_primary_entry ty op);
    [simpl; repeat split; auto; discriminate|].
  destruct (is_primary_entry ty op).
  - match goal with |- context [if ?c then _ else _] => destruct c end;
      [simpl; repeat split; auto; discriminate|].
    match goal with |- context [if ?c then _ else _] => destruct c end;
      [simpl; repeat split; auto; discriminate|].
    match goal with |- context [record_losses ?s _ _] =>
      destruct (record_losses_throttle s now pnl) as (A & B & C)
    end.
    simpl in A, B, C. rewrite H3 in A. cbv zeta.
    repeat split; auto. intros Hne. apply B, Hne.
  - destruct (record_losses_throttle self now pnl) as (A & B & C).
    rewrite H3 in A. cbv zeta. repeat split; auto. intros Hne. apply B, Hne.
Qed.

Lemma record_trade_throttle_after_recording_witness :
  let self := snd (record_trade (init 10000) 0 (-14 # 1000) (1 # 10) "exit" "primary" "") in
  let r := record_trade self 60000000 (-14 # 1000) (1 # 10) "exit" "primary" "" in
  configured self /\ fst r = TradeRecorded /\ throttle_mode (snd r) = true.
Proof.
  assert (Hc : configured
            (snd (record_trade (init 10000) 0 (-14 # 1000) (1 # 10) "exit" "primary" "")))
    by (repeat split).
  split; [exact Hc|]. split; [reflexivity|].
  apply (proj1 (record_trade_throttle_after_recording _ 60000000 (-14 # 1000) (1 # 10)
                  "exit" "primary" "" Hc)).
  - reflexivity.
  - vm_compute. reflexivity.
Defined.

(** C4, as stated, fails: on a fresh account one trade with
    [pnl_pct=-0.03] leaves the absolute daily loss (3%) above the 2.5%
    trigger and trips the per-trade freeze, and [throttle_mode] is still
    false after the call. *)
Lemma record_trade_freeze_skips_throttle :
  let r := record_trade (init 10000) 0 (-3 # 100) (1 # 10) "entry" "primary" "high" in
  fst r = TradeLossExceeded (-3 # 100) /\
  Qlt_bool (25 # 1000) (Qabs (daily_loss_total (snd r))) = true /\
  execution_frozen (snd r) = true /\
  throttle_mode (snd r) = false.
Proof. vm_compute. repeat split. Qed.

(** C9: [should_throttle] is true exactly when [throttle_mode] is set and
    [execution_frozen] is not; so a frozen protocol reports false even
    with the throttle flag set. *)
Theorem should_throttle_iff (self : t) :
  (should_throttle self = true <->
   throttle_mode self = true /\ execution_frozen self = false) /\
  (execution_frozen self = true -> should_throttle self = false).
Proof.
  unfold should_throttle.
  destruct (throttle_mode self), (execution_frozen self); simpl;
    intuition congruence.
Qed.

Lemma validate_permitted_iff (self : t) (c : string) (p : Q) :
  execution_frozen self = false ->
  (fst (validate_trade_request self c p) = true <->
   (p <= max_position_size_pct self * _risk_scaling_from_confidence c)%Q).
Proof.
  intros H. unfold validate_trade_request. rewrite H.
  destruct (Qlt_bool _ p) eqn:E; simpl.
  - apply Qlt_bool_iff in E. split; [discriminate|].
    intros Hle. exfalso. exact (Qlt_not_le _ _ E Hle).
  - apply Qlt_bool_false_iff in E. split; auto.
Qed.

(** C5: an account built with equity 10000 is in tier retail with a 20%
    position cap; a tag containing "high" has multiplier 1.0; with such a
    tag a request of 0.25 is denied and one of 0.15 is permitted; and for
    any protocol that is not frozen, the request is permitted exactly when
    its size does not exceed tier limit times confidence multiplier. *)
Theorem validate_retail_high_confidence (a b : string) :
  let tag := a +:+ ("high" +:+ b) in
  let r := init 10000 in
  tier r = retail /\
  max_position_size_pct r = 20 # 100 /\
  execution_frozen r = false /\
  _risk_scaling_from_confidence tag = 1%Q /\
  validate_trade_request r tag (25 # 100) = (false, PositionExceedsScaledLimit tag) /\
  validate_trade_request r tag (15 # 100) = (true, TradePermitted) /\
  (forall (self : t) (c : string) (p : Q),
     execution_frozen self = false ->
     (fst (validate_trade_request self c p) = true <->
      (p <= max_position_size_pct self * _risk_scaling_from_confidence c)%Q)).
Proof.
  intros tag r.
  assert (Hs : _risk_scaling_from_confidence tag = 1%Q).
  { unfold _risk_scaling_from_confidence, tag.
    rewrite contains_high_lower, orb_true_r. reflexivity. }
  repeat split; try reflexivity; try exact Hs.
  - unfold validate_trade_request. rewrite Hs. reflexivity.
  - unfold validate_trade_request. rewrite Hs. reflexivity.
  - apply validate_permitted_iff; assumption.
  - apply validate_permitted_iff; assumption.
Qed.

(** C6: on a protocol that is not frozen, one [record_trade] with
    [pnl_pct=-0.02] sets [execution_frozen]; it stays set through any
    later run of [record_trade], [validate_trade_request] and
    [should_throttle] calls, and [reset_daily_risk] clears it. *)
Theorem freeze_persists_until_reset (self : t) now size ty op cls (calls : list Call) :
  configured self ->
  execution_frozen self = false ->
  let s1 := snd (record_trade self now (-2 # 100) size ty op cls) in
  execution_frozen s1 = true /\
  execution_frozen (run s1 calls) = true /\
  execution_frozen (reset_daily_risk (run s1 calls)) = false.
Proof.
  intros (_ & H2 & _) Hnf s1.
  assert (H1 : execution_frozen s1 = true).
  { unfold s1, record_trade. rewrite Hnf. simpl.
    destruct (is_primary_entry ty op).
    - match goal with |- context [if ?c then _ else _] => destruct c end;
        [reflexivity|].
      match goal with |- context [if ?c then _ else _] => destruct c end;
        [reflexivity|].
      apply record_losses_big_loss. simpl. rewrite H2. reflexivity.
    - apply record_losses_big_loss. rewrite H2. reflexivity. }
  split; [exact H1|]. split; [now apply run_keeps_frozen | reflexivity].
Qed.

Lemma freeze_persists_until_reset_witness :
  let s1 := snd (record_trade (init 10000) 0 (-2 # 100) (1 # 10) "entry" "primary" "high") in
  let calls := [CallValidate "high" (1 # 10); CallShouldThrottle;
                CallRecordTrade 1000000 (1 # 100) (1 # 10) "exit" "primary" "high"] in
  configured (init 10000) /\
  execution_frozen (init 10000) = false /\
  execution_frozen s1 = true /\
  execution_frozen (run s1 calls) = true /\
  execution_frozen (reset_daily_risk (run s1 calls)) = false.
Proof.
  split; [apply init_configured|]. split; [reflexivity|].
  apply (freeze_persists_until_reset (init 10000));
    [apply init_configured | reflexivity].
Defined.

End RiskFacts.

(** ** SignalIsolationSystem *)

Section SignalIsolationFacts.
Import Py SignalIsolationSystem.

Variable sha256_hex : string -> string.

Lemma lockdown_disables_override (self : t) :
  override_enabled (lockdown self) = false /\
  override_log (lockdown self) = override_log self /\
  execution_log (lockdown self) = execution_log self.
Proof. repeat split. Qed.

(** C10: while [override_enabled] is false, [trigger_override] returns
    [False] and hands back the object as it was: nothing is appended to
    [override_log] or to [execution_log], and nothing else changes. *)
Theorem trigger_override_refused (self : t) (signal_packet : gmap string val)
    (user_id justification : string) :
  override_enabled self = false ->
  let r := trigger_override sha256_hex self signal_packet user_id justification in
  fst r = Ok false /\
  snd r = self /\
  override_log (snd r) = override_log self /\
  execution_log (snd r) = execution_log self.
Proof.
  intros H. unfold trigger_override. rewrite H. simpl. auto.
Qed.

End SignalIsolationFacts.

Lemma trigger_override_refused_witness :
  let self := SignalIsolationSystem.lockdown SignalIsolationSystem.init in
  let packet : gmap string Py.val :=
    {[ "id" := Py.VStr "sig-1"; "timestamp" := Py.VStr "2025-04-09T14:33:00Z";
       "inputs" := Py.VFlags {[ "technical" := true ]} ]} in
  let r := SignalIsolationSystem.trigger_override (fun s => s) self packet "ops" "manual" in
  SignalIsolationSystem.override_enabled self = false /\
  fst r = Py.Ok false /\
  snd r = self /\
  SignalIsolationSystem.override_log (snd r) = SignalIsolationSystem.override_log self /\
  SignalIsolationSystem.execution_log (snd r) = SignalIsolationSystem.execution_log self.
Proof.
  split; [reflexivity|].
  apply (trigger_override_refused (fun s => s)
           (SignalIsolationSystem.lockdown SignalIsolationSystem.init)).
  reflexivity.
Defined.

(** ** TradeCoordinator: split registry *)

Section SplitFacts.
Import TradeCoordinator.

Lemma string_leb_refl (s : string) : String.leb s s = true.
Proof. destruct (String.leb_total s s); assumption. Qed.

(** The loop returns at the first registered entry that applies. *)
Lemma first_split_factor_spec (log : list SplitEntry) (symbol date_str : string) :
  (Forall (fun e => split_applies symbol date_str e = false) log /\
   first_split_factor log symbol date_str = 1%Q) \/
  (exists before entry after,
     log = before ++ entry :: after /\
     Forall (fun e => split_applies symbol date_str e = false) before /\
     split_applies symbol date_str entry = true /\
     first_split_factor log symbol date_str = split_factor entry).
Proof.
  induction log as [|e log IH]; simpl.
  - left. split; [constructor | reflexivity].
  - destruct (split_applies symbol date_str e) eqn:E.
    + right. exists [], e, log. repeat split; auto.
    + destruct IH as [[Hall Hr] | (before & entry & after & Hl & Hb & Ha & Hr)].
      * left. split; [constructor; assumption | exact Hr].
      * right. exists (e :: before), entry, after. subst log.
        repeat split; auto.
Qed.

Lemma newest_first_app (symbol : string) (before : list SplitEntry) :
  forall rest, newest_first symbol (before ++ rest) -> newest_first symbol rest.
Proof.
  induction before as [|e before IH]; intros rest H; simpl in *; [exact H|].
  apply IH. exact (proj2 H).
Qed.

Lemma split_applies_symbol (symbol date_str : string) (e : SplitEntry) :
  split_applies symbol date_str e = true ->
  split_symbol e = symbol /\ String.leb (split_date e) date_str = true.
Proof.
  unfold split_applies. rewrite andb_true_iff, String.eqb_eq. auto.
Qed.

(** C8 (as the code has it): [get_split_factor] returns the factor of the
    first registered split of the symbol dated at or before the given
    date, and 1.0 when there is none; when the symbol's splits were
    registered newest first, that entry is the most recent split at or
    before the date. *)
Theorem get_split_factor_first_registered (self : t) (symbol date_str : string) :
  ((Forall (fun e => split_applies symbol date_str e = false) (split_log self) /\
    get_split_factor self symbol date_str = 1%Q) \/
   (exists before entry after,
      split_log self = before ++ entry :: after /\
      Forall (fun e => split_applies symbol date_str e = false) before /\
      split_applies symbol date_str entry = true /\
      get_split_factor self symbol date_str = split_factor entry /\
      (newest_first symbol (split_log self) ->
       most_recent_applicable (split_log self) symbol date_str entry))).
Proof.
  unfold get_split_factor.
  destruct (first_split_factor_spec (split_log self) symbol date_str)
    as [H | (before & entry & after & Hl & Hb & Ha & Hr)]; [left; exact H|].
  right. exists before, entry, after. repeat split; auto.
  - rewrite Hl. apply in_or_app. right. left. reflexivity.
  - intros other Hin Happ. rewrite Hl in Hin, H.
    apply in_app_or in Hin. destruct Hin as [Hin | [Heq | Hin]].
    + rewrite Forall_forall in Hb. apply list_elem_of_In in Hin.
      rewrite (Hb _ Hin) in Happ. discriminate.
    + subst other. apply string_leb_refl.
    + apply newest_first_app in H. simpl in H. destruct H as [H _].
      apply H; auto.
      * apply (split_applies_symbol _ _ _ Ha).
      * apply (split_applies_symbol _ _ _ Happ).
Qed.

(** C8, as stated, fails: with the 2014 split of AAPL registered before
    the 2020 one, a query for 2021-01-01 returns the 2014 factor (7),
    while the most recent split at or before that date is the 2020 one
    (factor 4). *)
Lemma get_split_factor_registration_order :
  let tc0 := init SignalIsolationSystem.init (RiskExecutionProtocol.init 10000) in
  let tc := register_split (register_split tc0 "AAPL" "2014-06-09" 7)
                           "AAPL" "2020-08-31" 4 in
  let latest := {| split_symbol := "AAPL"; split_date := "2020-08-31";
                   split_factor := 4 |} in
  most_recent_applicable (split_log tc) "AAPL" "2021-01-01" latest /\
  get_split_factor tc "AAPL" "2021-01-01" = 7%Q /\
  ~ (get_split_factor tc "AAPL" "2021-01-01" == split_factor latest)%Q.
Proof.
  cbv zeta. split; [|split; [reflexivity | vm_compute; discriminate]].
  split; [simpl; auto|]. split; [reflexivity|].
  intros other [H | [H | []]] _; subst other; reflexivity.
Qed.

End SplitFacts.

(** ** TradeCoordinator: the sanitizer step of [process_signal] *)

Section CoordinatorFacts.
Import Py PacketSanitizer TradeCoordinator.

Variable strptime : string -> option Z.
Variable str : val -> string.
Variable sha256_hex : string -> string.
Variable evaluate_trade_tax_notes : val -> string -> val -> val -> list string.

(** [sanitize] looks at field lengths only. *)
Lemma sanitize_short_fields (self : PacketSanitizer.t) (d : gmap string val) :
  (forall k v, d !! k = Some v -> (String.length (str v) <= max_length self)%nat) ->
  sanitize str self (ODict d) = inr true.
Proof.
  intros H. unfold sanitize.
  destruct (existsb _ (map_to_list d)) eqn:E; [|reflexivity].
  apply existsb_exists in E. destruct E as ([k v] & Hin & Hlt).
  apply list_elem_of_In, elem_of_map_to_list in Hin.
  apply H in Hin. simpl in Hlt. apply Nat.ltb_lt in Hlt. lia.
Qed.

(** C1, on the code: a packet whose timestamp [validate_timestamp]
    would refuse (bad format, in the future, or older than 5 minutes) is
    accepted by [sanitize], which never calls it; [process_signal] goes on
    to build a decision and appends it to [decision_log]. *)
Theorem process_signal_accepts_refused_timestamp (self : TradeCoordinator.t)
    (now now_rl : Q) (utcnow : Z) (d : gmap string val) (id ts : string)
    (flags : gmap string bool) (cause : PacketSanitizer.ValueError) :
  Qlt_bool (now - last_safe_trade_time self) (anomaly_cooldown self) = false ->
  fst (RateLimiter.allow (ratelimiter self) now_rl) = true ->
  (forall k v, d !! k = Some v ->
     (String.length (str v) <= max_length (sanitizer self))%nat) ->
  d !! "id" = Some (VStr id) ->
  d !! "timestamp" = Some (VStr ts) ->
  d !! "inputs" = Some (VFlags flags) ->
  d !! "confidence_tag" = None ->
  d !! "risk_pct" = None ->
  d !! "symbol" = None ->
  validate_timestamp strptime (sanitizer self) ts utcnow = inl cause ->
  let r := process_signal str sha256_hex evaluate_trade_tax_notes self now now_rl (ODict d) in
  sanitize str (sanitizer self) (ODict d) = inr true /\
  exists decision,
    fst r = DecisionReply decision /\
    timestamp decision = VStr ts /\
    decision_log (snd r) = decision_log self ++ [decision].
Proof.
  intros Hcool Hrate Hlen Hid Hts Hin Htag Hrisk Hsym _.
  pose proof (sanitize_short_fields (sanitizer self) d Hlen) as Hsan.
  split; [exact Hsan|].
  unfold process_signal. rewrite Hcool.
  destruct (RateLimiter.allow (ratelimiter self) now_rl) as [ok rl].
  simpl in Hrate. subst ok. simpl negb. cbv iota.
  change (sanitizer (with_ratelimiter self rl)) with (sanitizer self).
  rewrite Hsan.
  unfold decide_signal, getitem, get, SignalIsolationSystem.allow_trade,
    SignalIsolationSystem.log_execution, SignalIsolationSystem.multi_factor_confirm,
    getitem.
  rewrite Hid, Hts, Hin, Htag, Hrisk, Hsym. simpl.
  destruct (_ <=? Py.agree_count flags)%nat; simpl.
  - unfold validate_untyped. simpl.
    destruct (RiskExecutionProtocol.execution_frozen (rep self)); simpl;
      destruct (RiskExecutionProtocol.validate_trade_request _ _ _) as [rep_ok why];
      eexists; repeat split.
  - eexists; repeat split.
Qed.

End CoordinatorFacts.

Lemma process_signal_accepts_refused_timestamp_witness :
  let strptime := fun s : string =>
    if String.eqb s "2020-01-01T00:00:00Z" then Some 1577836800000000 else None in
  let str := Py.str_with (fun _ => "0.01")
               (fun _ => "{'technical': True, 'order_flow': True, 'volatility': True}") in
  let self := TradeCoordinator.init SignalIsolationSystem.init
                (RiskExecutionProtocol.init 10000) in
  let d : gmap string Py.val :=
    {[ "id" := Py.VStr "sig-1";
       "timestamp" := Py.VStr "2020-01-01T00:00:00Z";
       "inputs" := Py.VFlags {[ "technical" := true; "order_flow" := true;
                                "volatility" := true ]} ]} in
  let r := TradeCoordinator.process_signal str (fun s => s) (fun _ _ _ _ => [])
             self 1744209180 1744209180 (PacketSanitizer.ODict d) in
  PacketSanitizer.validate_timestamp strptime (TradeCoordinator.sanitizer self)
    "2020-01-01T00:00:00Z" 1744209180000000 = inl PacketSanitizer.TimestampTooOld /\
  PacketSanitizer.sanitize str (TradeCoordinator.sanitizer self) (PacketSanitizer.ODict d)
    = inr true /\
  exists decision,
    fst r = TradeCoordinator.DecisionReply decision /\
    TradeCoordinator.timestamp decision = Py.VStr "2020-01-01T00:00:00Z" /\
    TradeCoordinator.decision_log (snd r) = TradeCoordinator.decision_log self ++ [decision].
Proof.
  cbv zeta. split; [reflexivity|].
  apply (process_signal_accepts_refused_timestamp
           (fun s : string =>
              if String.eqb s "2020-01-01T00:00:00Z" then Some 1577836800000000 else None)
           _ (fun s => s) (fun _ _ _ _ => []) _ 1744209180 1744209180 1744209180000000
           _ "sig-1" "2020-01-01T00:00:00Z"
           {[ "technical" := true; "order_flow" := true; "volatility" := true ]}
           PacketSanitizer.TimestampTooOld);
    try reflexivity.
  intros k v H. apply elem_of_map_to_list in H. vm_compute in H.
  repeat (inversion H as [|? ? ? H']; subst; clear H; [vm_compute; lia|]; rename H' into H).
  inversion H.
Defined.

(** ** The volatility-regime filter *)

Section VixFacts.
Import VixWhipsawFilter.

(** C3 (as the code has it): on a date with a previous row, with neither
    the red light nor the cooldown active, a drop of more than 7% that
    does not also meet the yellow trigger (previous close above 30 and a
    drop of more than 8%) returns [red_watch_triggered], sets
    [observe_red_on] to the next day and [red_watch] to true and leaves
    the other keys alone; when the yellow trigger is met it wins, the
    call returns [cooling_triggered] and the red watch is not armed. The
    drop tests are the code's own: [(prev_vix - today_vix) / prev_vix]
    computed in binary64 and compared with the floats 0.07 and 0.08. *)
Theorem red_watch_trigger (current_date : Z) (vix_data : Series) (state : State)
    (today_vix prev_vix : Q) :
  loc vix_data current_date = Some today_vix ->
  previous_close vix_data current_date = Some prev_vix ->
  is_active (red_light_until state) current_date = false ->
  is_active (cooldown_until state) current_date = false ->
  drop_exceeds prev_vix today_vix (7 # 100) = true ->
  let yellow :=
    Qlt_bool 30 (F64.round prev_vix) && drop_exceeds prev_vix today_vix (8 # 100) in
  let r := vix_whipsaw_filter current_date vix_data state in
  (yellow = false ->
   fst r = red_watch_triggered /\
   observe_red_on (snd r) = Some (current_date + days 1) /\
   red_watch (snd r) = Some true /\
   cooldown_until (snd r) = cooldown_until state /\
   observation_day (snd r) = observation_day state /\
   last_trigger_day (snd r) = last_trigger_day state /\
   red_light_until (snd r) = red_light_until state /\
   red_count (snd r) = red_count state /\
   volatility_floor (snd r) = volatility_floor state) /\
  (yellow = true ->
   fst r = cooling_triggered /\
   observe_red_on (snd r) = observe_red_on state /\
   red_watch (snd r) = red_watch state).
Proof.
  intros Hloc Hprev Hred Hcool Hdrop yellow r.
  unfold r, vix_whipsaw_filter. rewrite Hloc, Hred, Hcool, Hprev.
  fold yellow. split; intros Hy; rewrite Hy.
  - rewrite Hdrop. simpl. repeat split.
  - simpl. repeat split.
Qed.

Lemma red_watch_trigger_witness :
  let vix_data : Series := [(0, 20%Q); (24, 18%Q)] in
  let r := vix_whipsaw_filter 24 vix_data empty in
  drop_exceeds 20 18 (7 # 100) = true /\
  fst r = red_watch_triggered /\
  observe_red_on (snd r) = Some 48 /\
  red_watch (snd r) = Some true.
Proof.
  split; [reflexivity|].
  destruct (red_watch_trigger 24 [(0, 20%Q); (24, 18%Q)] empty 18 20
              eq_refl eq_refl eq_refl eq_refl eq_refl) as [H _].
  destruct (H eq_refl) as (H1 & H2 & H3 & _).
  exact (conj H1 (conj H2 H3)).
Defined.

(** C3, as stated, fails: with a previous close of 35 and a close of 31
    the drop (about 11.4%) exceeds 7%, no red light or cooldown is active,
    and the call returns [cooling_triggered] without arming the red
    watch. *)
Lemma yellow_trigger_preempts_red_watch :
  let r := vix_whipsaw_filter 24 [(0, 35%Q); (24, 31%Q)] empty in
  previous_close [(0, 35%Q); (24, 31%Q)] 24 = Some 35%Q /\
  drop_exceeds 35 31 (7 # 100) = true /\
  fst r = cooling_triggered /\
  fst r <> red_watch_triggered /\
  observe_red_on (snd r) = None /\
  red_watch (snd r) = None.
Proof. vm_compute. repeat split. discriminate. Qed.

(** The tests are made on rounded quotients: from 30.5 to 28.06 the drop
    is 8% in exact arithmetic, the quotient computed is just above the
    float 0.08, and the yellow trigger fires. *)
Lemma yellow_trigger_rounded_quotient :
  ((305 # 10) - (2806 # 100) == (8 # 100) * (305 # 10))%Q /\
  drop_exceeds (305 # 10) (2806 # 100) (8 # 100) = true /\
  fst (vix_whipsaw_filter 24 [(0, 305 # 10); (24, 2806 # 100)] empty) = cooling_triggered.
Proof. vm_compute. repeat split. Qed.

End VixFacts.

(** ** Allocation rule 1: the liquidity reserve *)

Section AllocationFacts.
Import Py AllocationRules.

Variable fsum : list Q -> Q.


Lemma scale_names (f : Q) (bw : BinWeights) :
  List.map fst (scale f bw) = List.map fst bw.
Proof.
  unfold scale. rewrite List.map_map. reflexivity.
Qed.


End AllocationFacts.



(** * Further properties of the modelled code *)

(** ** RiskExecutionProtocol: sizing, booking and the hourly window *)

Section RiskProtocolMore.
Import RiskExecutionProtocol.

Lemma risk_scaling_range (c : string) :
  (0 < _risk_scaling_from_confidence c <= 1)%Q.
Proof.
  unfold _risk_scaling_from_confidence.
  repeat match goal with |- context [if ?b then _ else _] => destruct b end;
    split; lra.
Qed.

(** On an account as [__init__] builds it, whatever the equity and the
    confidence tag, a permitted request is no larger than the tier's
    position cap, and so never above 25% of equity. *)
Theorem permitted_request_within_tier_cap (equity : Q) (c : string) (p : Q) :
  fst (validate_trade_request (init equity) c p) = true ->
  (p <= max_position_size_pct (init equity))%Q /\ (p <= 25 # 100)%Q.
Proof.
  intros H. apply validate_permitted_iff in H; [|reflexivity].
  pose proof (risk_scaling_range c) as [Hpos Hle].
  revert H. unfold init. simpl.
  destruct (_define_tier equity); intros H; split; lra.
Qed.

Lemma permitted_request_within_tier_cap_witness :
  fst (validate_trade_request (init 1500) "B_2_X" (9 # 100)) = true /\
  (9 # 100 <= max_position_size_pct (init 1500))%Q /\ (9 # 100 <= 25 # 100)%Q.
Proof.
  split; [reflexivity|].
  apply (permitted_request_within_tier_cap 1500 "B_2_X" (9 # 100)). reflexivity.
Defined.

Lemma record_losses_effect (self : t) (now : Z) (pnl : Q) :
  let r := record_losses self now pnl in
  trade_history (snd r) = trade_history self ++ [pnl] /\
  last_trade_time (snd r) = Some now /\
  daily_loss_total (snd r)
    = (daily_loss_total self + (if Qlt_bool pnl 0 then pnl else 0))%Q /\
  trade_timestamps (snd r) = trade_timestamps self /\
  max_trades_per_hour (snd r) = max_trades_per_hour self /\
  locked_due_to_freq (snd r) = locked_due_to_freq self /\
  (execution_frozen (snd r) = true \/
   execution_frozen (snd r) = execution_frozen self) /\
  match fst r with
  | TradeRecorded | TradeLossExceeded _ | DailyLossExceeded _ => True
  | _ => False
  end.
Proof.
  unfold record_losses.
  destruct (Qlt_bool pnl (- _)); [simpl; repeat split; auto|].
  destruct (Qlt_bool (max_daily_drawdown_pct _) _); [simpl; repeat split; auto|].
  destruct (Qlt_bool (throttle_trigger_pct _) _); simpl; repeat split; auto.
Qed.

(** [record_trade] either books the trade or turns it away, never half of
    each: with "Trade recorded." or a loss-limit freeze the P&L is the new
    last element of [trade_history] and [last_trade_time] is the call's
    clock reading; with any other reply (frozen, frequency, size)
    [trade_history], [daily_loss_total] and [last_trade_time] are as
    before. *)
Theorem record_trade_books_or_turns_away (self : t) now pnl size ty op cls :
  let r := record_trade self now pnl size ty op cls in
  match fst r with
  | TradeRecorded | TradeLossExceeded _ | DailyLossExceeded _ =>
      trade_history (snd r) = trade_history self ++ [pnl] /\
      last_trade_time (snd r) = Some now
  | FrozenNoPrimaryEntries | EntryFrequencyExceeded | TradeSizeTooLarge _ _ =>
      trade_history (snd r) = trade_history self /\
      daily_loss_total (snd r) = daily_loss_total self /\
      last_trade_time (snd r) = last_trade_time self
  end.
Proof.
  unfold record_trade.
  destruct (execution_frozen self && is_primary_entry ty op); [simpl; auto|].
  destruct (is_primary_entry ty op).
  - match goal with |- context [if ?c then _ else _] => destruct c end; [simpl; auto|].
    match goal with |- context [if ?c then _ else _] => destruct c end; [simpl; auto|].
    match goal with |- context [record_losses ?s _ _] =>
      destruct (record_losses_effect s now pnl) as (H1 & H2 & _ & _ & _ & _ & _ & H8)
    end.
    cbv zeta. destruct (fst (record_losses _ now pnl)); try contradiction; auto.
  - destruct (record_losses_effect self now pnl) as (H1 & H2 & _ & _ & _ & _ & _ & H8).
    cbv zeta. destruct (fst (record_losses self now pnl)); try contradiction; auto.
Qed.

Lemma record_trade_loss_le (self : t) now pnl size ty op cls :
  (daily_loss_total (snd (record_trade self now pnl size ty op cls))
   <= daily_loss_total self)%Q.
Proof.
  assert (Hb : forall s, (daily_loss_total (snd (record_losses s now pnl))
                          <= daily_loss_total s)%Q).
  { intros s. destruct (record_losses_effect s now pnl) as (_ & _ & H & _).
    rewrite H. destruct (Qlt_bool pnl 0) eqn:E; [|lra].
    apply Qlt_bool_iff in E. lra. }
  unfold record_trade.
  destruct (execution_frozen self && is_primary_entry ty op); [simpl; lra|].
  destruct (is_primary_entry ty op); [|apply Hb].
  match goal with |- context [if ?c then _ else _] => destruct c end; [simpl; lra|].
  match goal with |- context [if ?c then _ else _] => destruct c end; [simpl; lra|].
  apply (Hb (set_timestamps self _)).
Qed.

Lemma run_ops_invariant (P : t -> Prop) :
  (forall s c, P s -> P (call s c)) ->
  (forall s, P s -> P (reset_daily_risk s)) ->
  forall ops s, P s -> P (run_ops s ops).
Proof.
  intros Hc Hr ops. induction ops as [|o ops IH]; intros s Hs; simpl; [exact Hs|].
  apply IH. destruct o; simpl; auto.
Qed.

(** [daily_loss_total] only accumulates losses: no [record_trade] call
    raises it (a winning trade does not offset earlier losses), and after
    any run of calls and resets on a new account it is at most zero. *)
Theorem daily_loss_only_accumulates (self : t) now pnl size ty op cls
    (equity : Q) (ops : list Op) :
  (daily_loss_total (snd (record_trade self now pnl size ty op cls))
   <= daily_loss_total self)%Q /\
  (daily_loss_total (run_ops (init equity) ops) <= 0)%Q.
Proof.
  split; [apply record_trade_loss_le|].
  apply (run_ops_invariant (fun s => (daily_loss_total s <= 0)%Q)).
  - intros s c Hs. destruct c; simpl; auto.
    eapply Qle_trans; [apply record_trade_loss_le | exact Hs].
  - intros s _. simpl. lra.
  - simpl. lra.
Qed.

(** A freeze blocks primary entries only: on a frozen protocol a call that
    is not a primary entry (an exit, a leg adjustment) is still booked, its
    loss is still accumulated, and the protocol stays frozen. *)
Theorem frozen_protocol_still_books_exits (self : t) now pnl size ty op cls :
  execution_frozen self = true ->
  is_primary_entry ty op = false ->
  let r := record_trade self now pnl size ty op cls in
  trade_history (snd r) = trade_history self ++ [pnl] /\
  daily_loss_total (snd r)
    = (daily_loss_total self + (if Qlt_bool pnl 0 then pnl else 0))%Q /\
  execution_frozen (snd r) = true.
Proof.
  intros Hf Hp. unfold record_trade. rewrite Hf, Hp. simpl.
  destruct (record_losses_effect self now pnl) as (H1 & _ & H3 & _ & _ & _ & H7 & _).
  repeat split; auto. destruct H7 as [H | H]; congruence.
Qed.

Lemma frozen_protocol_still_books_exits_witness :
  let self := set_frozen (init 10000) false in
  let r := record_trade self 0 (-1 # 100) (1 # 10) "exit" "primary" "high" in
  execution_frozen self = true /\
  is_primary_entry "exit" "primary" = false /\
  trade_history (snd r) = [-1 # 100] /\
  execution_frozen (snd r) = true.
Proof.
  split; [reflexivity|]. split; [reflexivity|].
  destruct (frozen_protocol_still_books_exits (set_frozen (init 10000) false)
              0 (-1 # 100) (1 # 10) "exit" "primary" "high" eq_refl eq_refl)
    as (H1 & _ & H3).
  split; [exact H1 | exact H3].
Defined.

Lemma record_trade_window_inv (self : t) now pnl size ty op cls :
  (execution_frozen self = false ->
   (length (trade_timestamps self) <= max_trades_per_hour self)%nat) ->
  (locked_due_to_freq self = true -> execution_frozen self = true) ->
  let s' := snd (record_trade self now pnl size ty op cls) in
  (execution_frozen s' = false ->
   (length (trade_timestamps s') <= max_trades_per_hour s')%nat) /\
  (locked_due_to_freq s' = true -> execution_frozen s' = true).
Proof.
  intros Hw Hl.
  assert (Hb : forall s,
    (execution_frozen s = false ->
     (length (trade_timestamps s) <= max_trades_per_hour s)%nat) ->
    (locked_due_to_freq s = true -> execution_frozen s = true) ->
    (execution_frozen (snd (record_losses s now pnl)) = false ->
     (length (trade_timestamps (snd (record_losses s now pnl)))
      <= max_trades_per_hour (snd (record_losses s now pnl)))%nat) /\
    (locked_due_to_freq (snd (record_losses s now pnl)) = true ->
     execution_frozen (snd (record_losses s now pnl)) = true)).
  { intros s Hsw Hsl.
    destruct (record_losses_effect s now pnl) as (_ & _ & _ & E4 & E5 & E6 & E7 & _).
    rewrite E4, E5, E6. split.
    - intros Hnf. apply Hsw. destruct E7 as [E | E]; congruence.
    - intros Hlk. destruct E7 as [E | E]; [exact E | rewrite E; auto]. }
  unfold record_trade.
  destruct (execution_frozen self && is_primary_entry ty op) eqn:Efp;
    [simpl; auto|].
  destruct (is_primary_entry ty op); [|apply Hb; assumption].
  rewrite andb_true_r in Efp.
  match goal with |- context [if (?a <? ?b)%nat then _ else _] =>
    destruct (a <? b)%nat eqn:Elen end.
  { simpl. split; [discriminate | reflexivity]. }
  apply Nat.ltb_ge in Elen.
  match goal with |- context [if ?c then _ else _] => destruct c end.
  { simpl. split; [discriminate | reflexivity]. }
  apply Hb; simpl.
  - intros _. exact Elen.
  - intros Hlk. rewrite (Hl Hlk) in Efp. discriminate.
Qed.

(** On an account as [__init__] builds it, after any run of calls and
    resets: while execution is not frozen the hourly window holds at most
    the tier's [max_trades_per_hour] entries, and [locked_due_to_freq] is
    never set without [execution_frozen]. *)
Theorem unfrozen_window_within_cap (equity : Q) (ops : list Op) :
  let s := run_ops (init equity) ops in
  (execution_frozen s = false ->
   (length (trade_timestamps s) <= max_trades_per_hour s)%nat) /\
  (locked_due_to_freq s = true -> execution_frozen s = true).
Proof.
  apply (run_ops_invariant (fun s =>
    (execution_frozen s = false ->
     (length (trade_timestamps s) <= max_trades_per_hour s)%nat) /\
    (locked_due_to_freq s = true -> execution_frozen s = true))).
  - intros s c [Hw Hl]. destruct c; simpl; auto.
    apply record_trade_window_inv; assumption.
  - intros s _. simpl. split; [lia | discriminate].
  - simpl. split; [lia | discriminate].
Qed.

(** A size [validate_trade_request] denies on an unfrozen protocol is not
    merely refused when it comes through [record_trade] as a primary entry:
    the call freezes execution (by the frequency lock or by the size
    check) and books nothing. *)
Theorem denied_size_freezes_on_entry (self : t) now pnl size cls :
  execution_frozen self = false ->
  fst (validate_trade_request self cls size) = false ->
  let r := record_trade self now pnl size "entry" "primary" cls in
  execution_frozen (snd r) = true /\
  trade_history (snd r) = trade_history self /\
  (fst r = EntryFrequencyExceeded \/ fst r = TradeSizeTooLarge size cls).
Proof.
  intros Hnf Hd. unfold validate_trade_request in Hd. rewrite Hnf in Hd.
  destruct (Qlt_bool (max_position_size_pct self * _) size) eqn:E;
    [|discriminate].
  unfold record_trade. rewrite Hnf. simpl.
  match goal with |- context [if ?c then _ else _] => destruct c end;
    [simpl; auto|].
  simpl. rewrite E. simpl. auto.
Qed.

Lemma denied_size_freezes_on_entry_witness :
  let r := record_trade (init 10000) 0 (1 # 100) (25 # 100) "entry" "primary" "high" in
  execution_frozen (init 10000) = false /\
  fst (validate_trade_request (init 10000) "high" (25 # 100)) = false /\
  execution_frozen (snd r) = true /\
  trade_history (snd r) = [] /\
  fst r = TradeSizeTooLarge (25 # 100) "high".
Proof.
  split; [reflexivity|]. split; [reflexivity|].
  destruct (denied_size_freezes_on_entry (init 10000) 0 (1 # 100) (25 # 100) "high"
              eq_refl eq_refl) as (H1 & H2 & _).
  split; [exact H1|]. split; [exact H2 | reflexivity].
Defined.




Lemma call_keeps_settings (s : t) (c : Call) :
  account_equity (call s c) = account_equity s /\
  tier (call s c) = tier s /\
  max_position_size_pct (call s c) = max_position_size_pct s /\
  max_trades_per_hour (call s c) = max_trades_per_hour s /\
  max_daily_drawdown_pct (call s c) = max_daily_drawdown_pct s /\
  max_trade_drawdown_pct (call s c) = max_trade_drawdown_pct s /\
  throttle_trigger_pct (call s c) = throttle_trigger_pct s /\
  throttle_scaling (call s c) = throttle_scaling s.
Proof.
  destruct c; simpl; [|repeat split..].
  unfold record_trade, record_losses.
  repeat match goal with |- context [if ?b then _ else _] => destruct b end;
    simpl; repeat split.
Qed.

(** [reset_daily_risk] brings an account back to the state [__init__]
    built, whatever calls and resets came in between; only
    [last_trade_time] keeps its value. *)
Theorem reset_restores_initial_state (equity : Q) (ops : list Op) :
  let s := run_ops (init equity) ops in
  let i := init equity in
  reset_daily_risk s =
    mk (account_equity i) (tier i) (max_position_size_pct i) (max_trades_per_hour i)
       (max_daily_drawdown_pct i) (max_trade_drawdown_pct i) 0 [] (last_trade_time s)
       false false (throttle_trigger_pct i) (throttle_scaling i) false [].
Proof.
  cbv zeta.
  assert (H : account_equity (run_ops (init equity) ops) = account_equity (init equity) /\
    tier (run_ops (init equity) ops) = tier (init equity) /\
    max_position_size_pct (run_ops (init equity) ops) = max_position_size_pct (init equity) /\
    max_trades_per_hour (run_ops (init equity) ops) = max_trades_per_hour (init equity) /\
    max_daily_drawdown_pct (run_ops (init equity) ops) = max_daily_drawdown_pct (init equity) /\
    max_trade_drawdown_pct (run_ops (init equity) ops) = max_trade_drawdown_pct (init equity) /\
    throttle_trigger_pct (run_ops (init equity) ops) = throttle_trigger_pct (init equity) /\
    throttle_scaling (run_ops (init equity) ops) = throttle_scaling (init equity)).
  { apply (run_ops_invariant (fun s =>
      account_equity s = account_equity (init equity) /\
      tier s = tier (init equity) /\
      max_position_size_pct s = max_position_size_pct (init equity) /\
      max_trades_per_hour s = max_trades_per_hour (init equity) /\
      max_daily_drawdown_pct s = max_daily_drawdown_pct (init equity) /\
      max_trade_drawdown_pct s = max_trade_drawdown_pct (init equity) /\
      throttle_trigger_pct s = throttle_trigger_pct (init equity) /\
      throttle_scaling s = throttle_scaling (init equity))).
    - intros s c Hs. destruct (call_keeps_settings s c)
        as (E1 & E2 & E3 & E4 & E5 & E6 & E7 & E8).
      rewrite E1, E2, E3, E4, E5, E6, E7, E8. exact Hs.
    - intros s Hs. exact Hs.
    - repeat split. }
  destruct H as (E1 & E2 & E3 & E4 & E5 & E6 & E7 & E8).
  unfold reset_daily_risk. rewrite E1, E2, E3, E4, E5, E6, E7, E8. reflexivity.
Qed.

End RiskProtocolMore.

(** ** SignalIsolationSystem: the two audit logs *)

Section SignalIsolationMore.
Import Py SignalIsolationSystem.

Variable sha256_hex : string -> string.

Lemma agree_count_le_size (d : gmap string bool) : (Py.agree_count d <= size d)%nat.
Proof.
  unfold Py.agree_count. rewrite <- (length_map_to_list d).
  apply List.filter_length_le.
Qed.

(** What [log_execution] does: it appends one entry built from the packet,
    or raises and leaves the object alone. *)
Lemma log_execution_effect (self : t) (p : gmap string val) (a o : bool) :
  (exists e, fst (log_execution sha256_hex self p a o) = Raise e /\
             snd (log_execution sha256_hex self p a o) = self) \/
  (exists id ts d,
     p !! "id" = Some (VStr id) /\ p !! "timestamp" = Some ts /\
     p !! "inputs" = Some (VFlags d) /\
     fst (log_execution sha256_hex self p a o) = Ok () /\
     snd (log_execution sha256_hex self p a o) =
       mk (multi_factor_threshold self) (override_enabled self) (override_log self)
          (execution_log self ++
             [ {| signal_id_hash := sha256_hex id; el_timestamp := ts;
                  approved := a; overridden := o;
                  input_count := size d; agree_count := Py.agree_count d |} ])).
Proof.
  unfold log_execution, getitem.
  destruct (p !! "id") as [[]|]; try (left; eexists; split; reflexivity).
  destruct (p !! "timestamp") as [ts|]; try (left; eexists; split; reflexivity).
  destruct (p !! "inputs") as [[]|]; try (left; eexists; split; reflexivity).
  right. eexists _, _, _. repeat split.
Qed.

(** [allow_trade] logs every verdict it returns: a returned verdict comes
    from a packet with a string id, a timestamp and an [inputs] mapping,
    it is true exactly when at least [multi_factor_threshold] of those
    inputs are true (so never when the packet has fewer inputs than the
    threshold), and exactly one entry is appended to [execution_log],
    holding the hash of the id, the timestamp, the verdict, no override
    mark, the number of inputs and the number of true inputs; the override
    log and switch are untouched. When the call raises, nothing changed. *)
Theorem allow_trade_logs_every_verdict (self : t) (signal_packet : gmap string val) :
  let r := allow_trade sha256_hex self signal_packet in
  match fst r with
  | Ok verdict =>
      exists id ts d,
        signal_packet !! "id" = Some (VStr id) /\
        signal_packet !! "timestamp" = Some ts /\
        signal_packet !! "inputs" = Some (VFlags d) /\
        verdict = (multi_factor_threshold self <=? Py.agree_count d)%nat /\
        execution_log (snd r) = execution_log self ++
          [ {| signal_id_hash := sha256_hex id; el_timestamp := ts;
               approved := verdict; overridden := false;
               input_count := size d; agree_count := Py.agree_count d |} ] /\
        (Py.agree_count d <= size d)%nat /\
        (verdict = true -> (multi_factor_threshold self <= size d)%nat) /\
        override_log (snd r) = override_log self /\
        override_enabled (snd r) = override_enabled self /\
        multi_factor_threshold (snd r) = multi_factor_threshold self
  | Raise _ => snd r = self
  end.
Proof.
  unfold allow_trade, getitem.
  destruct (signal_packet !! "inputs") as [ins|] eqn:Ein; [|reflexivity].
  destruct ins; simpl; try reflexivity.
  destruct (log_execution_effect self signal_packet
              (multi_factor_threshold self <=? Py.agree_count d)%nat false)
    as [(e & H1 & H2) | (id & ts & d' & Hid & Hts & Hin & H1 & H2)].
  - destruct (log_execution _ _ _ _ _) as [res s']. simpl in *. subst. reflexivity.
  - destruct (log_execution _ _ _ _ _) as [res s']. simpl in *. subst.
    assert (d' = d) by congruence. subst d'.
    exists id, ts, d. simpl. repeat split; auto.
    + apply agree_count_le_size.
    + intros H. apply Nat.leb_le in H.
      pose proof (agree_count_le_size d). lia.
Qed.

(** With overrides enabled, a [trigger_override] that returns does return
    True and leaves one record in each log: the plain record (raw id,
    timestamp, user, justification) at the end of [override_log], and an
    approved, overridden entry with the hashed id at the end of
    [execution_log]. When it raises, [execution_log] is unchanged. *)
Theorem trigger_override_audit_trail (self : t) (signal_packet : gmap string val)
    (user_id justification : string) :
  override_enabled self = true ->
  let r := trigger_override sha256_hex self signal_packet user_id justification in
  match fst r with
  | Ok verdict =>
      verdict = true /\
      exists id ts entry,
        signal_packet !! "id" = Some (VStr id) /\
        signal_packet !! "timestamp" = Some ts /\
        override_log (snd r) = override_log self ++
          [ {| or_signal_id := VStr id; or_timestamp := ts;
               or_user := user_id; or_justification := justification |} ] /\
        execution_log (snd r) = execution_log self ++ [entry] /\
        signal_id_hash entry = sha256_hex id /\
        approved entry = true /\ overridden entry = true
  | Raise _ => execution_log (snd r) = execution_log self
  end.
Proof.
  intros Hen. unfold trigger_override, getitem. rewrite Hen. simpl.
  destruct (signal_packet !! "id") as [id|] eqn:Eid; [|reflexivity].
  destruct (signal_packet !! "timestamp") as [ts|] eqn:Ets; [|reflexivity].
  match goal with |- context [log_execution _ ?s _ _ _] =>
    destruct (log_execution_effect s signal_packet true true)
      as [(e & H1 & H2) | (id' & ts' & d & Hid & Hts & Hin & H1 & H2)];
    destruct (log_execution sha256_hex s signal_packet true true) as [res s']
  end; simpl in *; subst.
  - reflexivity.
  - split; [reflexivity|]. exists id', ts. eexists.
    assert (id = VStr id') by congruence. subst id. simpl. repeat split.
Qed.

End SignalIsolationMore.

Lemma trigger_override_audit_trail_witness :
  let packet : gmap string Py.val :=
    {[ "id" := Py.VStr "sig-7"; "timestamp" := Py.VStr "2025-04-09T14:33:00Z";
       "inputs" := Py.VFlags {[ "technical" := true ]} ]} in
  let r := SignalIsolationSystem.trigger_override (fun s => s)
             SignalIsolationSystem.init packet "ops" "desk call" in
  SignalIsolationSystem.override_enabled SignalIsolationSystem.init = true /\
  fst r = Py.Ok true /\
  length (SignalIsolationSystem.override_log (snd r)) = 1%nat /\
  length (SignalIsolationSystem.execution_log (snd r)) = 1%nat.
Proof.
  cbv zeta. split; [reflexivity|]. split; [reflexivity|].
  pose proof (trigger_override_audit_trail (fun s => s) SignalIsolationSystem.init
    {[ "id" := Py.VStr "sig-7"; "timestamp" := Py.VStr "2025-04-09T14:33:00Z";
       "inputs" := Py.VFlags {[ "technical" := true ]} ]} "ops" "desk call" eq_refl) as H.
  cbv zeta in H.
  match type of H with match fst ?r with _ => _ end =>
    change (fst r) with (@Py.Ok bool true) in H
  end.
  destruct H as (_ & id & ts & entry & _ & _ & Hov & Hex & _).
  rewrite Hov, Hex. split; reflexivity.
Defined.

Section SignalIsolationRuns.
Import Py SignalIsolationSystem.

Variable sha256_hex : string -> string.

Lemma allow_trade_effect (self : t) (p : gmap string val) :
  let s' := snd (allow_trade sha256_hex self p) in
  override_enabled s' = override_enabled self /\
  override_log s' = override_log self /\
  (execution_log s' = execution_log self \/
   exists e, execution_log s' = execution_log self ++ [e] /\ overridden e = false).
Proof.
  unfold allow_trade, getitem.
  destruct (p !! "inputs") as [ins|]; [|simpl; auto].
  destruct ins; simpl; auto.
  match goal with |- context [log_execution _ self p ?a ?o] =>
    destruct (log_execution_effect sha256_hex self p a o)
      as [(e & H1 & H2) | (id & ts & d' & _ & _ & _ & H1 & H2)];
    destruct (log_execution sha256_hex self p a o) as [res s']
  end; simpl in *; subst; simpl; auto.
  repeat split. right. eexists. split; reflexivity.
Qed.

Lemma trigger_override_effect (self : t) (p : gmap string val) (u j : string) :
  let s' := snd (trigger_override sha256_hex self p u j) in
  override_enabled s' = override_enabled self /\
  (s' = self \/
   exists rec,
     override_enabled self = true /\
     override_log s' = override_log self ++ [rec] /\
     (execution_log s' = execution_log self \/
      exists e, execution_log s' = execution_log self ++ [e] /\
                approved e = true /\ overridden e = true)).
Proof.
  unfold trigger_override, getitem.
  destruct (override_enabled self) eqn:Hen; simpl; [|auto].
  destruct (p !! "id") as [id|]; [|simpl; auto].
  destruct (p !! "timestamp") as [ts|]; [|simpl; auto].
  match goal with |- context [log_execution _ ?s p ?a ?o] =>
    destruct (log_execution_effect sha256_hex s p a o)
      as [(e & H1 & H2) | (id' & ts' & d' & _ & _ & _ & H1 & H2)];
    destruct (log_execution sha256_hex s p a o) as [res s']
  end; simpl in *; subst; simpl.
  - split; [reflexivity|]. right. eexists. repeat split. left. reflexivity.
  - split; [reflexivity|]. right. eexists. repeat split.
    right. eexists. repeat split.
Qed.

(** An override for a packet that has an id and a timestamp but no usable
    [inputs] mapping is written to [override_log] before [log_execution]
    raises: the exception escapes, the override record stays, and
    [execution_log] has no entry for it. *)
Theorem trigger_override_half_logged (self : t) (signal_packet : gmap string val)
    (user_id justification : string) (id ts : val) :
  override_enabled self = true ->
  signal_packet !! "id" = Some id ->
  signal_packet !! "timestamp" = Some ts ->
  (forall d, signal_packet !! "inputs" <> Some (VFlags d)) ->
  let r := trigger_override sha256_hex self signal_packet user_id justification in
  (exists e, fst r = Raise e) /\
  override_log (snd r) = override_log self ++
    [ {| or_signal_id := id; or_timestamp := ts;
         or_user := user_id; or_justification := justification |} ] /\
  execution_log (snd r) = execution_log self.
Proof.
  intros Hen Hid Hts Hno. unfold trigger_override, getitem.
  rewrite Hen, Hid, Hts. simpl.
  match goal with |- context [log_execution _ ?s signal_packet ?a ?o] =>
    destruct (log_execution_effect sha256_hex s signal_packet a o)
      as [(e & H1 & H2) | (id' & ts' & d' & _ & _ & Hin & _)];
    [destruct (log_execution sha256_hex s signal_packet a o) as [res s']|]
  end.
  - simpl in *. subst. simpl. split; [eexists; reflexivity | split; reflexivity].
  - exfalso. exact (Hno _ Hin).
Qed.

Lemma run_invariant (P : t -> Prop) :
  (forall s c, P s -> P (call sha256_hex s c)) ->
  forall cs s, P s -> P (run sha256_hex s cs).
Proof.
  intros Hc cs. induction cs as [|c cs IH]; intros s Hs; simpl; [exact Hs|].
  apply IH. apply Hc. exact Hs.
Qed.

(** [lockdown] cannot be undone through the class: after it, whatever
    [allow_trade], [trigger_override] and [lockdown] calls follow,
    [override_enabled] stays false and [override_log] never grows. *)
Theorem lockdown_is_one_way (self : t) (cs : list Call) :
  let s := run sha256_hex (lockdown self) cs in
  override_enabled s = false /\ override_log s = override_log self.
Proof.
  apply (run_invariant (fun s =>
    override_enabled s = false /\ override_log s = override_log self)).
  - intros s c [He Hl]. destruct c; simpl.
    + destruct (allow_trade_effect s signal_packet) as (E1 & E2 & _).
      split; congruence.
    + destruct (trigger_override_effect s signal_packet user_id justification)
        as (E1 & [E2 | (rec & Hen & _)]).
      * rewrite E2. auto.
      * congruence.
    + auto.
  - simpl. auto.
Qed.

Lemma filter_length_implies {A : Type} (f g : A -> bool) (l : list A) :
  Forall (fun x => f x = true -> g x = true) l ->
  (length (List.filter f l) <= length (List.filter g l))%nat.
Proof.
  induction 1 as [|x l Hx _ IH]; simpl; [lia|].
  destruct (f x) eqn:Ef.
  - rewrite (Hx eq_refl). simpl. lia.
  - destruct (g x); simpl; lia.
Qed.

(** On a system as [__init__] builds it, after any run of [allow_trade],
    [trigger_override] and [lockdown] calls, the compliance summary is
    consistent: overrides used <= approved trades <= executions logged,
    every overridden entry is an approved one, and the overrides counted
    never exceed the records in [override_log]. *)
Theorem compliance_summary_consistent (cs : list Call) :
  let s := run sha256_hex init cs in
  let c := generate_compliance_summary s in
  (overrides_used c <= approved_trades c)%nat /\
  (approved_trades c <= executions_logged c)%nat /\
  Forall (fun e => overridden e = true -> approved e = true) (execution_log s) /\
  (overrides_used c <= length (override_log s))%nat.
Proof.
  cbv zeta.
  assert (H : Forall (fun e => overridden e = true -> approved e = true)
                (execution_log (run sha256_hex init cs)) /\
              (length (List.filter overridden (execution_log (run sha256_hex init cs)))
               <= length (override_log (run sha256_hex init cs)))%nat).
  { apply (run_invariant (fun s =>
      Forall (fun e => overridden e = true -> approved e = true) (execution_log s) /\
      (length (List.filter overridden (execution_log s))
       <= length (override_log s))%nat)).
    - intros s c [Hf Hn]. destruct c; simpl.
      + destruct (allow_trade_effect s signal_packet)
          as (_ & E2 & [E3 | (e & E3 & He)]); rewrite E2, E3; [auto|].
        split.
        * apply Forall_app. split; [exact Hf|].
          constructor; [congruence | constructor].
        * rewrite List.filter_app, length_app. simpl. rewrite He. simpl. lia.
      + destruct (trigger_override_effect s signal_packet user_id justification)
          as (_ & [E | (rec & _ & E2 & [E3 | (e & E3 & Ha & Ho)])]).
        * rewrite E. auto.
        * rewrite E2, E3, length_app. simpl. split; [exact Hf | lia].
        * rewrite E2, E3. split.
          -- apply Forall_app. split; [exact Hf|].
             constructor; [auto | constructor].
          -- rewrite List.filter_app, !length_app. simpl. rewrite Ho. simpl. lia.
      + auto.
    - simpl. split; [constructor | lia]. }
  destruct H as [Hf Hn]. simpl. repeat split.
  - apply filter_length_implies. exact Hf.
  - apply List.filter_length_le.
  - exact Hf.
  - exact Hn.
Qed.

End SignalIsolationRuns.

Lemma trigger_override_half_logged_witness :
  let packet : gmap string Py.val :=
    {[ "id" := Py.VStr "sig-9"; "timestamp" := Py.VStr "2025-04-09T14:33:00Z" ]} in
  let r := SignalIsolationSystem.trigger_override (fun s => s)
             SignalIsolationSystem.init packet "ops" "desk call" in
  SignalIsolationSystem.override_enabled SignalIsolationSystem.init = true /\
  fst r = Py.Raise (Py.KeyError "inputs") /\
  length (SignalIsolationSystem.override_log (snd r)) = 1%nat /\
  SignalIsolationSystem.execution_log (snd r) = [].
Proof.
  cbv zeta. split; [reflexivity|]. split; [reflexivity|].
  destruct (trigger_override_half_logged (fun s => s) SignalIsolationSystem.init
    {[ "id" := Py.VStr "sig-9"; "timestamp" := Py.VStr "2025-04-09T14:33:00Z" ]}
    "ops" "desk call" (Py.VStr "sig-9") (Py.VStr "2025-04-09T14:33:00Z"))
    as (_ & Hov & Hex); try reflexivity.
  - intros d. discriminate.
  - rewrite Hov, Hex. split; reflexivity.
Defined.

(** ** RateLimiter and PacketSanitizer *)

Section IngressFacts.
Import Py.

Lemma evict_split (now : Q) (ts : list Q) :
  exists dropped kept,
    ts = dropped ++ kept /\
    RateLimiter.evict now (ts ++ [now]) = kept ++ [now] /\
    Forall (fun t => (1 < now - t)%Q) dropped /\
    match kept with
    | [] => True
    | oldest :: _ => (now - oldest <= 1)%Q
    end.
Proof.
  induction ts as [|t0 ts IH]; simpl.
  - exists [], []. repeat split; [|constructor].
    replace (Qlt_bool 1 (now - now)) with false; [reflexivity|].
    symmetry. apply Qlt_bool_false_iff. lra.
  - destruct (Qlt_bool 1 (now - t0)) eqn:E.
    + destruct IH as (dropped & kept & H1 & H2 & H3 & H4).
      exists (t0 :: dropped), kept. subst ts. repeat split; auto.
      constructor; [apply Qlt_bool_iff; exact E | exact H3].
    + exists [], (t0 :: ts). repeat split; [constructor|].
      apply Qlt_bool_false_iff. exact E.
Qed.

(** [allow] records every submission, admitted or not: the new window is a
    suffix of the old one followed by the current reading; what was dropped
    from the front was more than a second old, the oldest entry kept is
    not; the answer compares the size of that window, the current
    submission included, with [burst_limit]. The limits are not changed. *)
Theorem rate_limiter_counts_every_submission (self : RateLimiter.t) (now : Q) :
  let r := RateLimiter.allow self now in
  exists dropped kept,
    RateLimiter.timestamps self = dropped ++ kept /\
    RateLimiter.timestamps (snd r) = kept ++ [now] /\
    Forall (fun t => (1 < now - t)%Q) dropped /\
    match kept with
    | [] => True
    | oldest :: _ => (now - oldest <= 1)%Q
    end /\
    fst r = (length kept + 1 <=? RateLimiter.burst_limit self)%nat /\
    RateLimiter.burst_limit (snd r) = RateLimiter.burst_limit self /\
    RateLimiter.max_packets_per_sec (snd r) = RateLimiter.max_packets_per_sec self.
Proof.
  destruct (evict_split now (RateLimiter.timestamps self))
    as (dropped & kept & H1 & H2 & H3 & H4).
  exists dropped, kept. unfold RateLimiter.allow. simpl. rewrite H2.
  rewrite length_app. simpl. repeat split; auto.
Qed.

Lemma filter_all_true {A : Type} (f : A -> bool) (l : list A) :
  Forall (fun x => f x = true) l -> List.filter f l = l.
Proof.
  induction 1 as [|x l Hx _ IH]; simpl; [reflexivity|].
  rewrite Hx, IH. reflexivity.
Qed.

Lemma evict_sorted (now : Q) (ts : list Q) :
  StronglySorted Qle ts ->
  forall tail,
    RateLimiter.evict now (ts ++ now :: tail)
    = List.filter (fun t => negb (Qlt_bool 1 (now - t))) ts ++ now :: tail.
Proof.
  induction 1 as [|t0 ts Hs IH Hall]; intros tail; simpl.
  - replace (Qlt_bool 1 (now - now)) with false; [reflexivity|].
    symmetry. apply Qlt_bool_false_iff. lra.
  - destruct (Qlt_bool 1 (now - t0)) eqn:E; simpl; [apply IH|].
    f_equal. f_equal. symmetry. apply filter_all_true.
    apply Qlt_bool_false_iff in E.
    eapply Forall_impl; [exact Hall|]. simpl. intros t Ht.
    apply negb_true_iff, Qlt_bool_false_iff. lra.
Qed.

(** When the stored readings are in non-decreasing order (a clock that
    does not run backwards), the pop-from-the-left loop leaves exactly the
    submissions of the trailing second: the new window is the old one
    filtered by age <= 1 s, plus the current reading. *)
Theorem rate_limiter_window_is_trailing_second (self : RateLimiter.t) (now : Q) :
  StronglySorted Qle (RateLimiter.timestamps self) ->
  RateLimiter.timestamps (snd (RateLimiter.allow self now))
  = List.filter (fun t => negb (Qlt_bool 1 (now - t))) (RateLimiter.timestamps self)
    ++ [now].
Proof.
  intros Hs. unfold RateLimiter.allow. simpl. apply evict_sorted. exact Hs.
Qed.

Lemma rate_limiter_window_is_trailing_second_witness :
  let self := RateLimiter.mk [1 # 2; 2; 5 # 2]%Q 5 10 in
  StronglySorted Qle (RateLimiter.timestamps self) /\
  RateLimiter.timestamps (snd (RateLimiter.allow self 3)) = [2; 5 # 2; 3]%Q.
Proof.
  assert (Hs : StronglySorted Qle [1 # 2; 2; 5 # 2]%Q).
  { repeat constructor; discriminate. }
  split; [exact Hs|].
  exact (rate_limiter_window_is_trailing_second (RateLimiter.mk [1 # 2; 2; 5 # 2]%Q 5 10) 3 Hs).
Defined.

Lemma repeat_snoc {A : Type} (x : A) (k : nat) : repeat x k ++ [x] = repeat x (S k).
Proof. induction k as [|k IH]; simpl; [reflexivity | now rewrite IH]. Qed.

(** A burst at one instant on a new limiter: after [k] submissions with the
    same clock reading the window holds all [k] of them, and the next one
    is admitted exactly when it is at most the tenth. *)
Theorem rate_limiter_burst_at_one_instant (now : Q) (k : nat) :
  let s := Nat.iter k (fun s => snd (RateLimiter.allow s now)) RateLimiter.init in
  RateLimiter.timestamps s = repeat now k /\
  fst (RateLimiter.allow s now) = (k + 1 <=? 10)%nat.
Proof.
  cbv zeta.
  assert (H : RateLimiter.timestamps
                (Nat.iter k (fun s => snd (RateLimiter.allow s now)) RateLimiter.init)
              = repeat now k /\
              RateLimiter.burst_limit
                (Nat.iter k (fun s => snd (RateLimiter.allow s now)) RateLimiter.init)
              = 10%nat).
  { induction k as [|k [IH1 IH2]]; [split; reflexivity|].
    change (Nat.iter (S k) (fun s => snd (RateLimiter.allow s now)) RateLimiter.init)
      with (snd (RateLimiter.allow
                   (Nat.iter k (fun s => snd (RateLimiter.allow s now)) RateLimiter.init)
                   now)).
    set (s := Nat.iter k (fun s => snd (RateLimiter.allow s now)) RateLimiter.init) in *.
    change (RateLimiter.evict now (RateLimiter.timestamps s ++ [now]) = repeat now (S k) /\
            RateLimiter.burst_limit s = 10%nat).
    split; [|exact IH2].
    rewrite IH1.
    assert (He : forall n, RateLimiter.evict now (repeat now n ++ [now])
                           = repeat now n ++ [now]).
    { intros n.
      assert (Hf : Qlt_bool 1 (now - now) = false)
        by (apply Qlt_bool_false_iff; lra).
      destruct n; simpl; rewrite Hf; reflexivity. }
    rewrite He. apply repeat_snoc. }
  destruct H as [H1 H2]. split; [exact H1|].
  destruct (evict_split now (repeat now k)) as (dropped & kept & E1 & E2 & E3 & _).
  set (s := Nat.iter k (fun s => snd (RateLimiter.allow s now)) RateLimiter.init) in *.
  unfold RateLimiter.allow. cbn [fst]. rewrite H1, H2, E2.
  assert (dropped = []).
  { destruct dropped as [|t0 dropped]; [reflexivity|]. exfalso.
    inversion E3 as [|? ? Ht _]; subst.
    assert (Hin : In t0 (repeat now k)) by (rewrite E1; left; reflexivity).
    apply repeat_spec in Hin. subst t0. lra. }
  subst dropped. simpl in E1. subst kept.
  rewrite length_app, repeat_length. reflexivity.
Qed.

Variable strptime : string -> option Z.
Variable str : val -> string.

(** [sanitize] accepts a dict exactly when no field's [str] is longer than
    [max_length] (a field of exactly [max_length] characters passes), names
    the oversized-field cause otherwise, and turns away anything that is
    not a dict. *)
Theorem sanitize_accepts_iff (self : PacketSanitizer.t) (d : gmap string val) :
  (PacketSanitizer.sanitize str self (PacketSanitizer.ODict d) = inr true <->
   forall k v, d !! k = Some v ->
     (String.length (str v) <= PacketSanitizer.max_length self)%nat) /\
  (PacketSanitizer.sanitize str self (PacketSanitizer.ODict d)
     = inl PacketSanitizer.SuspiciouslyLargeField <->
   exists k v, d !! k = Some v /\
     (PacketSanitizer.max_length self < String.length (str v))%nat) /\
  PacketSanitizer.sanitize str self PacketSanitizer.OOther
    = inl PacketSanitizer.MalformedNotADictionary.
Proof.
  assert (Hbig : (exists k v, d !! k = Some v /\
                    (PacketSanitizer.max_length self < String.length (str v))%nat) ->
                 PacketSanitizer.sanitize str self (PacketSanitizer.ODict d)
                 = inl PacketSanitizer.SuspiciouslyLargeField).
  { intros (k & v & Hk & Hlt). unfold PacketSanitizer.sanitize.
    replace (existsb _ (map_to_list d)) with true; [reflexivity|].
    symmetry. apply existsb_exists. exists (k, v). split.
    - apply list_elem_of_In, elem_of_map_to_list. exact Hk.
    - simpl. apply Nat.ltb_lt. exact Hlt. }
  assert (Hcases : PacketSanitizer.sanitize str self (PacketSanitizer.ODict d) = inr true \/
                   exists k v, d !! k = Some v /\
                     (PacketSanitizer.max_length self < String.length (str v))%nat).
  { unfold PacketSanitizer.sanitize.
    destruct (existsb _ (map_to_list d)) eqn:E; [right | left; reflexivity].
    apply existsb_exists in E. destruct E as ([k v] & Hin & Hlt).
    exists k, v. split.
    - apply elem_of_map_to_list, list_elem_of_In. exact Hin.
    - apply Nat.ltb_lt. exact Hlt. }
  split; [|split; [|reflexivity]].
  - split; [|apply sanitize_short_fields].
    intros Hok k v Hk.
    destruct (le_lt_dec (String.length (str v)) (PacketSanitizer.max_length self))
      as [Hle | Hlt]; [exact Hle|].
    rewrite Hbig in Hok by (exists k, v; auto). discriminate.
  - split; [|exact Hbig].
    intros Hrej. destruct Hcases as [Hok | Hex]; [congruence | exact Hex].
Qed.

(** [validate_timestamp] accepts exactly the strings that parse to an
    instant not after [now] and at most five minutes before it; both ends
    are included (a packet stamped [now], or exactly 300 s earlier,
    passes). *)
Theorem validate_timestamp_accepts_iff (self : PacketSanitizer.t) (ts : string) (now : Z) :
  PacketSanitizer.validate_timestamp strptime self ts now = inr true <->
  exists packet_time,
    strptime ts = Some packet_time /\ 0 <= now - packet_time <= 300000000.
Proof.
  unfold PacketSanitizer.validate_timestamp. split.
  - destruct (strptime ts) as [t|]; [|discriminate].
    destruct (now <? t) eqn:E1; [discriminate|].
    destruct (5 * 60 * 1000000 <? now - t) eqn:E2; [discriminate|].
    intros _. exists t. split; [reflexivity|]. lia.
  - intros (t & Ht & Hr). rewrite Ht.
    destruct (now <? t) eqn:E1; [lia|].
    destruct (5 * 60 * 1000000 <? now - t) eqn:E2; [lia | reflexivity].
Qed.

End IngressFacts.

(** ** TradeCoordinator: the decision pipeline *)

Section PipelineFacts.
Import Py PacketSanitizer TradeCoordinator.

Variable str : val -> string.
Variable sha256_hex : string -> string.
Variable evaluate_trade_tax_notes : val -> string -> val -> val -> list string.

Lemma allow_trade_ok_id (s : SignalIsolationSystem.t) (p : gmap string val) (b : bool) :
  fst (SignalIsolationSystem.allow_trade sha256_hex s p) = Ok b ->
  exists id, p !! "id" = Some (VStr id).
Proof.
  unfold SignalIsolationSystem.allow_trade, getitem.
  destruct (p !! "inputs") as [ins|]; [|discriminate].
  destruct (SignalIsolationSystem.multi_factor_confirm s ins) as [ok|]; [|discriminate].
  destruct (log_execution_effect sha256_hex s p ok false)
    as [(e & H1 & _) | (id & ts & d & Hid & _)].
  - destruct (SignalIsolationSystem.log_execution _ _ _ _ _) as [res s'].
    simpl in H1. subst. discriminate.
  - intros _. exists id. exact Hid.
Qed.

(** What the gates after the sanitizer do to the coordinator. *)
Lemma decide_signal_effect (self : TradeCoordinator.t) (now : Q) (d : gmap string val) :
  let r := decide_signal sha256_hex evaluate_trade_tax_notes self now d in
  rep (snd r) = rep self /\
  symbol_registry (snd r) = symbol_registry self /\
  split_log (snd r) = split_log self /\
  spinoff_log (snd r) = spinoff_log self /\
  ratelimiter (snd r) = ratelimiter self /\
  sanitizer (snd r) = sanitizer self /\
  anomaly_cooldown (snd r) = anomaly_cooldown self /\
  match fst r with
  | DecisionReply dec =>
      decision_log (snd r) = decision_log self ++ [dec] /\
      (final_decision dec = APPROVED <-> suitable dec = true /\ permitted dec = true) /\
      (exists id, signal_id dec = VStr id) /\
      last_safe_trade_time (snd r)
        = (if suitable dec then last_safe_trade_time self else now)
  | ErrorReply _ => False
  | Escapes _ =>
      decision_log (snd r) = decision_log self /\
      last_safe_trade_time (snd r) = last_safe_trade_time self
  end.
Proof.
  unfold decide_signal, getitem.
  destruct (d !! "id") as [id|] eqn:Eid; [|simpl; repeat split].
  destruct (d !! "timestamp") as [ts|]; [|simpl; repeat split].
  destruct (d !! "inputs") as [ins|]; [|simpl; repeat split].
  destruct (SignalIsolationSystem.allow_trade sha256_hex (sis self) d)
    as [[allowed|e] sis1] eqn:Eallow; [|simpl; repeat split].
  assert (Hid : exists s, id = VStr s).
  { destruct (allow_trade_ok_id (sis self) d allowed) as (s & Hs).
    - rewrite Eallow. reflexivity.
    - exists s. congruence. }
  destruct allowed; simpl.
  - destruct (validate_untyped _ _ _) as [[rep_ok why]|e]; [|simpl; repeat split].
    destruct (get_current_symbol _ _) as [cur|e]; [|simpl; repeat split].
    destruct ts; simpl; repeat split; auto;
      destruct rep_ok; simpl; intuition congruence.
  - repeat split; auto; simpl; intuition congruence.
Qed.

(** Every decision [process_signal] returns is the new last element of
    [decision_log], and it is APPROVED exactly when both the SIS and the
    REP said yes; any other outcome (an error reply or an escaping
    exception) leaves [decision_log] as it was. *)
Theorem process_signal_logs_what_it_returns (self : TradeCoordinator.t)
    (now now_rl : Q) (signal_packet : obj) :
  let r := process_signal str sha256_hex evaluate_trade_tax_notes
             self now now_rl signal_packet in
  match fst r with
  | DecisionReply dec =>
      decision_log (snd r) = decision_log self ++ [dec] /\
      (final_decision dec = APPROVED <-> suitable dec = true /\ permitted dec = true)
  | _ => decision_log (snd r) = decision_log self
  end.
Proof.
  unfold process_signal.
  destruct (Qlt_bool _ _); [reflexivity|].
  destruct (RateLimiter.allow (ratelimiter self) now_rl) as [ok rl].
  destruct ok; simpl; [|reflexivity].
  destruct (sanitize str (sanitizer self) signal_packet); [reflexivity|].
  destruct signal_packet as [d|]; [|reflexivity].
  destruct (decide_signal_effect (with_ratelimiter self rl) now d)
    as (_ & _ & _ & _ & _ & _ & _ & H).
  cbv zeta in H.
  destruct (fst (decide_signal _ _ _ now d)); [contradiction| |].
  - destruct H as (H1 & H2 & _). split; assumption.
  - destruct H as [H _]. exact H.
Qed.

(** [process_signal] never writes to the risk protocol, the symbol, split
    and spin-off registries, the sanitizer or the cooldown length, whatever
    the packet and the outcome. *)
Theorem process_signal_frame (self : TradeCoordinator.t)
    (now now_rl : Q) (signal_packet : obj) :
  let s' := snd (process_signal str sha256_hex evaluate_trade_tax_notes
                   self now now_rl signal_packet) in
  rep s' = rep self /\
  symbol_registry s' = symbol_registry self /\
  split_log s' = split_log self /\
  spinoff_log s' = spinoff_log self /\
  sanitizer s' = sanitizer self /\
  anomaly_cooldown s' = anomaly_cooldown self.
Proof.
  unfold process_signal.
  destruct (Qlt_bool _ _); [simpl; repeat split|].
  destruct (RateLimiter.allow (ratelimiter self) now_rl) as [ok rl].
  destruct ok; simpl; [|repeat split].
  destruct (sanitize str (sanitizer self) signal_packet); [simpl; repeat split|].
  destruct signal_packet as [d|]; [|simpl; repeat split].
  destruct (decide_signal_effect (with_ratelimiter self rl) now d)
    as (H1 & H2 & H3 & H4 & _ & H6 & H7 & _).
  cbv zeta in *. repeat split; assumption.
Qed.

(** The error replies: the anomaly-throttle reply changes nothing at all,
    not even the rate limiter, and the wait it reports is the remaining
    cooldown computed in binary64 and rounded to two decimals (so it can
    read 0.0); a rate-limit or sanitizer rejection has already been
    counted by the rate limiter and changes nothing else. *)
Theorem process_signal_error_replies (self : TradeCoordinator.t)
    (now now_rl : Q) (signal_packet : obj) :
  let r := process_signal str sha256_hex evaluate_trade_tax_notes
             self now now_rl signal_packet in
  match fst r with
  | ErrorReply (AnomalyThrottleActive wait) =>
      snd r = self /\ wait = reported_wait self now
  | ErrorReply RateLimitExceeded | ErrorReply (PacketRejected _) =>
      snd r = with_ratelimiter self (snd (RateLimiter.allow (ratelimiter self) now_rl))
  | _ => True
  end.
Proof.
  unfold process_signal.
  destruct (Qlt_bool _ _) eqn:E.
  { simpl. split; reflexivity. }
  destruct (RateLimiter.allow (ratelimiter self) now_rl) as [ok rl].
  destruct ok; simpl; [|reflexivity].
  destruct (sanitize str (sanitizer self) signal_packet); [reflexivity|].
  destruct signal_packet as [d|]; [|exact I].
  destruct (decide_signal_effect (with_ratelimiter self rl) now d)
    as (_ & _ & _ & _ & _ & _ & _ & H).
  cbv zeta in H.
  destruct (fst (decide_signal _ _ _ now d)); [contradiction | exact I | exact I].
Qed.

(** A decision the SIS turned down starts the anomaly cooldown: the next
    call whose clock reading is less than [anomaly_cooldown] after it gets
    the throttle reply and changes nothing, whatever it carries. A decision
    the SIS let through leaves [last_safe_trade_time] alone. *)
Theorem sis_rejection_starts_cooldown (self : TradeCoordinator.t)
    (now now_rl : Q) (signal_packet : obj) (dec : Decision)
    (now' now_rl' : Q) (signal_packet' : obj) :
  fst (process_signal str sha256_hex evaluate_trade_tax_notes
         self now now_rl signal_packet) = DecisionReply dec ->
  let s' := snd (process_signal str sha256_hex evaluate_trade_tax_notes
                   self now now_rl signal_packet) in
  (suitable dec = true -> last_safe_trade_time s' = last_safe_trade_time self) /\
  (suitable dec = false ->
   (now' - now < anomaly_cooldown self)%Q ->
   process_signal str sha256_hex evaluate_trade_tax_notes s' now' now_rl' signal_packet'
   = (ErrorReply (AnomalyThrottleActive (reported_wait s' now')), s')).
Proof.
  intros Hr s'.
  assert (H : last_safe_trade_time s'
              = (if suitable dec then last_safe_trade_time self else now) /\
              anomaly_cooldown s' = anomaly_cooldown self).
  { revert Hr. unfold s', process_signal.
    destruct (Qlt_bool _ _); [discriminate|].
    destruct (RateLimiter.allow (ratelimiter self) now_rl) as [ok rl].
    destruct ok; simpl; [|discriminate].
    destruct (sanitize str (sanitizer self) signal_packet); [discriminate|].
    destruct signal_packet as [d|]; [|discriminate].
    destruct (decide_signal_effect (with_ratelimiter self rl) now d)
      as (_ & _ & _ & _ & _ & _ & H7 & H).
    cbv zeta in H, H7.
    destruct (fst (decide_signal _ _ _ now d)); [contradiction| |discriminate].
    intros Heq. injection Heq as Heq. subst d0.
    destruct H as (_ & _ & _ & H). split; [exact H | exact H7]. }
  destruct H as [Hl Hc]. split.
  - intros Hs. rewrite Hl, Hs. reflexivity.
  - intros Hs Hlt. rewrite Hs in Hl.
    unfold process_signal at 1.
    replace (Qlt_bool (now' - last_safe_trade_time s') (anomaly_cooldown s')) with true;
      [reflexivity|].
    symmetry. apply Qlt_bool_iff. rewrite Hl, Hc. exact Hlt.
Qed.

(** The wait is rounded after the subtraction: 90.406 seconds after the
    last rejection, with the default cooldown of 90.41, the throttle is
    still active and the wait reported is 0.0. *)
Lemma reported_wait_rounds_to_zero (self : TradeCoordinator.t) :
  anomaly_cooldown self = 9041 # 100 ->
  last_safe_trade_time self = 1000%Q ->
  Qlt_bool ((1090406 # 1000) - last_safe_trade_time self) (anomaly_cooldown self) = true /\
  (reported_wait self (1090406 # 1000) == 0)%Q.
Proof.
  intros Hc Hl. unfold reported_wait. rewrite Hc, Hl. vm_compute. split; reflexivity.
Qed.

(** Lookup after a decision: the decision [process_signal] has just
    returned carries a string id, and [get_decision_by_id] finds that very
    decision under it, ahead of any older decision with the same id. *)
Theorem get_decision_by_id_finds_latest (self : TradeCoordinator.t)
    (now now_rl : Q) (signal_packet : obj) (dec : Decision) :
  fst (process_signal str sha256_hex evaluate_trade_tax_notes
         self now now_rl signal_packet) = DecisionReply dec ->
  exists id,
    signal_id dec = VStr id /\
    get_decision_by_id
      (snd (process_signal str sha256_hex evaluate_trade_tax_notes
              self now now_rl signal_packet)) id = Some dec.
Proof.
  unfold process_signal.
  destruct (Qlt_bool _ _); [discriminate|].
  destruct (RateLimiter.allow (ratelimiter self) now_rl) as [ok rl].
  destruct ok; simpl; [|discriminate].
  destruct (sanitize str (sanitizer self) signal_packet); [discriminate|].
  destruct signal_packet as [d|]; [|discriminate].
  destruct (decide_signal_effect (with_ratelimiter self rl) now d)
    as (_ & _ & _ & _ & _ & _ & _ & H).
  cbv zeta in H.
  destruct (decide_signal _ _ _ now d) as [out s']. simpl in *.
  destruct out; [contradiction| |discriminate].
  intros Heq. injection Heq as Heq. subst d0.
  destruct H as (Hlog & _ & (id & Hid) & _).
  exists id. split; [exact Hid|].
  unfold get_decision_by_id. rewrite Hlog, rev_app_distr. simpl.
  unfold id_matches. rewrite Hid, String.eqb_refl. reflexivity.
Qed.

End PipelineFacts.

Lemma sis_rejection_starts_cooldown_witness :
  let str := Py.str_with (fun _ => "0.01") (fun _ => "{'technical': True}") in
  let self := TradeCoordinator.init SignalIsolationSystem.init
                (RiskExecutionProtocol.init 10000) in
  let packet := PacketSanitizer.ODict
    {[ "id" := Py.VStr "sig-2";
       "timestamp" := Py.VStr "2025-04-09T14:33:00Z";
       "inputs" := Py.VFlags {[ "technical" := true ]} ]} in
  let r := TradeCoordinator.process_signal str (fun s => s) (fun _ _ _ _ => [])
             self 1000 1000 packet in
  (exists dec, fst r = TradeCoordinator.DecisionReply dec /\
               TradeCoordinator.suitable dec = false) /\
  (1050 - 1000 < TradeCoordinator.anomaly_cooldown self)%Q /\
  exists wait,
    TradeCoordinator.process_signal str (fun s => s) (fun _ _ _ _ => [])
      (snd r) 1050 1050 packet
    = (TradeCoordinator.ErrorReply (TradeCoordinator.AnomalyThrottleActive wait), snd r).
Proof.
  intros str self packet r.
  eassert (Hr : fst r = TradeCoordinator.DecisionReply _) by (vm_compute; reflexivity).
  split; [eexists; split; [exact Hr | reflexivity]|].
  split; [reflexivity|].
  destruct (sis_rejection_starts_cooldown str (fun s => s) (fun _ _ _ _ => [])
              self 1000 1000 packet _ 1050 1050 packet Hr)
    as [_ H].
  eexists. apply H. reflexivity. reflexivity.
Defined.

Lemma get_decision_by_id_finds_latest_witness :
  let str := Py.str_with (fun _ => "0.01")
               (fun _ => "{'technical': True, 'order_flow': True, 'volatility': True}") in
  let self := TradeCoordinator.init SignalIsolationSystem.init
                (RiskExecutionProtocol.init 10000) in
  let packet := PacketSanitizer.ODict
    {[ "id" := Py.VStr "sig-3";
       "timestamp" := Py.VStr "2025-04-09T14:33:00Z";
       "inputs" := Py.VFlags {[ "technical" := true; "order_flow" := true;
                                "volatility" := true ]} ]} in
  let r := TradeCoordinator.process_signal str (fun s => s) (fun _ _ _ _ => [])
             self 1000 1000 packet in
  exists dec,
    fst r = TradeCoordinator.DecisionReply dec /\
    TradeCoordinator.final_decision dec = TradeCoordinator.APPROVED /\
    TradeCoordinator.get_decision_by_id (snd r) "sig-3" = Some dec.
Proof.
  intros str self packet r.
  eassert (Hr : fst r = TradeCoordinator.DecisionReply _) by (vm_compute; reflexivity).
  destruct (get_decision_by_id_finds_latest str (fun s => s) (fun _ _ _ _ => [])
              self 1000 1000 packet _ Hr) as (id & Hid & Hget).
  simpl in Hid. injection Hid as Hid. subst id.
  eexists. split; [exact Hr|]. split; [reflexivity | exact Hget].
Defined.

(** ** TradeCoordinator: registries and log views *)

Section RegistryFacts.
Import Py TradeCoordinator.

(** Symbol renames: after [register_symbol_change old new] the old symbol
    resolves to the new one and every other symbol resolves as before; a
    symbol never registered resolves to itself; and resolution is a single
    lookup, so a rename of the new symbol is not followed. *)
Theorem symbol_rename_lookup (self : TradeCoordinator.t) (old new other : string) :
  get_current_symbol (register_symbol_change self old new) (VStr old) = Ok (VStr new) /\
  (other <> old ->
   get_current_symbol (register_symbol_change self old new) (VStr other)
   = get_current_symbol self (VStr other)) /\
  (symbol_registry self !! other = None ->
   get_current_symbol self (VStr other) = Ok (VStr other)) /\
  (new <> old ->
   forall newer,
     get_current_symbol
       (register_symbol_change (register_symbol_change self old new) new newer)
       (VStr old) = Ok (VStr new)).
Proof.
  unfold get_current_symbol, register_symbol_change. simpl. repeat split.
  - rewrite lookup_insert_eq. reflexivity.
  - intros Hne. rewrite lookup_insert_ne by congruence. reflexivity.
  - intros Hnone. rewrite Hnone. reflexivity.
  - intros Hne newer. rewrite lookup_insert_ne by congruence.
    rewrite lookup_insert_eq. reflexivity.
Qed.

(** Spin-offs: [list_spinoffs_for] after [register_spinoff parent child]
    is the earlier answer with [child] added at the end when the query is
    for [parent], and the earlier answer otherwise; children come out in
    registration order. *)
Theorem spinoff_lookup_after_register (self : TradeCoordinator.t)
    (parent child date_str symbol : string) :
  list_spinoffs_for (register_spinoff self parent child date_str) symbol
  = list_spinoffs_for self symbol ++ (if String.eqb parent symbol then [child] else []).
Proof.
  unfold list_spinoffs_for, register_spinoff. simpl.
  rewrite List.filter_app, List.map_app. simpl.
  destruct (String.eqb parent symbol); reflexivity.
Qed.

Lemma first_split_factor_app (log : list SplitEntry) (entry : SplitEntry)
    (symbol date_str : string) :
  first_split_factor (log ++ [entry]) symbol date_str
  = if existsb (split_applies symbol date_str) log
    then first_split_factor log symbol date_str
    else if split_applies symbol date_str entry then split_factor entry else 1%Q.
Proof.
  induction log as [|e log IH]; simpl; [reflexivity|].
  destruct (split_applies symbol date_str e); simpl; [reflexivity | exact IH].
Qed.

(** Registering a split never changes an answer that an already registered
    split gives: the new entry is consulted only when no earlier entry of
    the symbol is dated at or before the query date. *)
Theorem split_lookup_after_register (self : TradeCoordinator.t)
    (symbol' date' : string) (factor' : Q) (symbol date_str : string) :
  get_split_factor (register_split self symbol' date' factor') symbol date_str
  = if existsb (split_applies symbol date_str) (split_log self)
    then get_split_factor self symbol date_str
    else if String.eqb symbol' symbol && String.leb date' date_str
         then factor' else 1%Q.
Proof.
  unfold get_split_factor, register_split. simpl.
  apply first_split_factor_app.
Qed.

Lemma skipn_suffix {A : Type} (l : list A) (k : nat) :
  (k <= length l)%nat ->
  exists older, l = older ++ List.skipn (length l - k) l /\
                length (List.skipn (length l - k) l) = k.
Proof.
  intros Hk. exists (List.firstn (length l - k) l). split.
  - symmetry. apply List.firstn_skipn.
  - rewrite List.length_skipn. lia.
Qed.

(** [recent_decisions n] for a positive [n] is the last [min n len]
    decisions, oldest first; with [n = 0] the slice [[-0:]] is the whole
    log, not the empty list. *)
Theorem recent_decisions_view (self : TradeCoordinator.t) (n : nat) :
  recent_decisions self 0 = decision_log self /\
  ((0 < n)%nat ->
   exists older,
     decision_log self = older ++ recent_decisions self n /\
     length (recent_decisions self n) = Nat.min n (length (decision_log self))).
Proof.
  split; [reflexivity|]. intros Hn.
  destruct n as [|n]; [lia|]. unfold recent_decisions.
  destruct (le_lt_dec (S n) (length (decision_log self))) as [Hle | Hgt].
  - destruct (skipn_suffix (decision_log self) (S n) Hle) as (older & H1 & H2).
    exists older. split; [exact H1|]. rewrite H2. lia.
  - exists []. replace (length (decision_log self) - S n)%nat with 0%nat by lia.
    split; [reflexivity|]. rewrite List.skipn_O. lia.
Qed.

(** [review_override_activity] returns the last five override records, or
    all of them when there are fewer, oldest first. *)
Theorem review_override_activity_view (sis0 : SignalIsolationSystem.t) :
  exists older,
    SignalIsolationSystem.override_log sis0
      = older ++ SignalIsolationSystem.review_override_activity sis0 /\
    length (SignalIsolationSystem.review_override_activity sis0)
      = Nat.min 5 (length (SignalIsolationSystem.override_log sis0)).
Proof.
  unfold SignalIsolationSystem.review_override_activity.
  destruct (le_lt_dec 5 (length (SignalIsolationSystem.override_log sis0)))
    as [Hle | Hgt].
  - destruct (skipn_suffix (SignalIsolationSystem.override_log sis0) 5 Hle)
      as (older & H1 & H2).
    exists older. split; [exact H1|]. rewrite H2. lia.
  - exists [].
    replace (length (SignalIsolationSystem.override_log sis0) - 5)%nat with 0%nat by lia.
    split; [reflexivity|]. rewrite List.skipn_O. lia.
Qed.

End RegistryFacts.

(** ** The volatility-regime filter across days *)

Section RegimeFacts.
Import VixWhipsawFilter.

Lemma fold_min_le (l : list Q) : forall a : Q,
  (fold_left (fun m y => if Qlt_bool y m then y else m) l a <= a)%Q /\
  forall x, In x l ->
    (fold_left (fun m y => if Qlt_bool y m then y else m) l a <= x)%Q.
Proof.
  induction l as [|y l IH]; intros a; simpl.
  - split; [lra | intros x []].
  - destruct (IH (if Qlt_bool y a then y else a)) as [H1 H2].
    destruct (Qlt_bool y a) eqn:E.
    + apply Qlt_bool_iff in E. split; [lra|].
      intros x [Hx | Hx]; [subst x; exact H1 | apply H2; exact Hx].
    + apply Qlt_bool_false_iff in E. split; [exact H1|].
      intros x [Hx | Hx]; [subst x; lra | apply H2; exact Hx].
Qed.

Lemma series_min_le (w : list Q) (dflt x : Q) :
  In x w -> (series_min w dflt <= x)%Q.
Proof.
  destruct w as [|y w]; [intros []|]. simpl.
  destruct (fold_min_le w y) as [H1 H2].
  intros [Hx | Hx]; [subst x; exact H1 | apply H2; exact Hx].
Qed.

Lemma loc_in_window (vix_data : Series) (d : Z) (today : Q) (n : Z) :
  0 <= n -> loc vix_data d = Some today -> In today (window vix_data (d - n) d).
Proof.
  intros Hn Hloc. unfold loc in Hloc.
  destruct (List.find _ vix_data) as [[d' v]|] eqn:E; [|discriminate].
  simpl in Hloc. injection Hloc as Hv. subst v.
  apply List.find_some in E. destruct E as [Hin Hd]. simpl in Hd.
  apply Z.eqb_eq in Hd. subst d'.
  unfold window. apply in_map_iff. exists (d, today). split; [reflexivity|].
  apply filter_In. split; [exact Hin|]. simpl.
  apply andb_true_iff. split; apply Z.leb_le; lia.
Qed.

Lemma min2_le_l (a b : Q) : (min2 a b <= a)%Q.
Proof.
  unfold min2. destruct (Qlt_bool b a) eqn:E; [|lra].
  apply Qlt_bool_iff in E. lra.
Qed.

Lemma min2_le_r (a b : Q) : (min2 a b <= b)%Q.
Proof.
  unfold min2. destruct (Qlt_bool b a) eqn:E; [lra|].
  apply Qlt_bool_false_iff in E. exact E.
Qed.

(** The red-light branch on a date it covers. *)
Lemma red_branch (current_date until : Z) (vix_data : Series) (state : State)
    (today : Q) :
  loc vix_data current_date = Some today ->
  red_light_until state = Some until ->
  current_date <= until ->
  let floor := min2 (series_min (window vix_data (current_date - days 21) current_date)
                                today) 38 in
  (floor <= today)%Q /\ (floor <= 38)%Q /\
  vix_whipsaw_filter current_date vix_data state =
    (red_light_active,
     mk (cooldown_until state) (observation_day state) (last_trigger_day state)
        (red_light_until state) (red_count state) (observe_red_on state)
        (red_watch state) (Some floor)).
Proof.
  intros Hloc Hred Hle floor.
  assert (Hf : (floor <= today)%Q).
  { unfold floor. eapply Qle_trans; [apply min2_le_l|].
    apply series_min_le. apply loc_in_window; [unfold days; lia | exact Hloc]. }
  split; [exact Hf|]. split; [apply min2_le_r|].
  unfold vix_whipsaw_filter. rewrite Hloc, Hred. simpl.
  replace (current_date <=? until) with true by (symmetry; apply Z.leb_le; exact Hle).
  fold floor.
  replace (Qlt_bool today floor) with false; [reflexivity|].
  symmetry. apply Qlt_bool_false_iff. exact Hf.
Qed.

(** While a red light is in force ([current_date <= red_light_until]) and
    the date is in the series, the filter always answers
    [red_light_active]: the three-week window contains today's close, so
    the floor it yields (capped at 38) is never above today's close and the
    early exit cannot fire. Only [volatility_floor] is rewritten. *)
Theorem red_light_holds_until_expiry (current_date until : Z) (vix_data : Series)
    (state : State) (today : Q) :
  loc vix_data current_date = Some today ->
  red_light_until state = Some until ->
  current_date <= until ->
  let r := vix_whipsaw_filter current_date vix_data state in
  fst r = red_light_active /\
  red_light_until (snd r) = Some until /\
  (exists floor, volatility_floor (snd r) = Some floor /\
                 (floor <= today)%Q /\ (floor <= 38)%Q) /\
  cooldown_until (snd r) = cooldown_until state /\
  observation_day (snd r) = observation_day state /\
  red_count (snd r) = red_count state /\
  observe_red_on (snd r) = observe_red_on state /\
  red_watch (snd r) = red_watch state.
Proof.
  intros Hloc Hred Hle.
  destruct (red_branch current_date until vix_data state today Hloc Hred Hle)
    as (H1 & H2 & H3).
  cbv zeta. rewrite H3. simpl. repeat split; auto.
  eexists. repeat split; [exact H1 | exact H2].
Qed.

Lemma red_light_holds_until_expiry_witness :
  let vix_data : Series := [(0, 45%Q); (24, 30%Q)] in
  let state := mk None None None (Some 72) (Some 1) None (Some false) None in
  let r := vix_whipsaw_filter 24 vix_data state in
  loc vix_data 24 = Some 30%Q /\
  24 <= 72 /\
  fst r = red_light_active /\
  red_light_until (snd r) = Some 72.
Proof.
  cbv zeta. split; [reflexivity|]. split; [lia|].
  destruct (red_light_holds_until_expiry 24 72 [(0, 45%Q); (24, 30%Q)]
              (mk None None None (Some 72) (Some 1) None (Some false) None) 30)
    as (H1 & H2 & _); [reflexivity | reflexivity | lia |].
  split; [exact H1 | exact H2].
Defined.

Lemma round_pos_nonneg (n d : positive) : (0 <= F64.round_pos n d)%Q.
Proof.
  unfold F64.round_pos. cbv zeta.
  match goal with |- context [Z.max ?x F64.emin] => set (e := Z.max x F64.emin) end.
  set (N := Z.pos n * 2 ^ Z.max 0 (- e)).
  set (D := Z.pos d * 2 ^ Z.max 0 e).
  assert (HD : 0 < D).
  { unfold D. apply Z.mul_pos_pos; [lia | apply Z.pow_pos_nonneg; lia]. }
  assert (HN : 0 <= N).
  { unfold N. apply Z.mul_nonneg_nonneg; [lia | apply Z.pow_nonneg; lia]. }
  assert (Hm : 0 <= N / D) by (apply Z.div_pos; assumption).
  match goal with |- context [match ?c with Eq => ?a | Lt => ?b | Gt => ?g end] =>
    set (m' := match c with Eq => a | Lt => b | Gt => g end)
  end.
  assert (Hm' : 0 <= m').
  { unfold m'. destruct (2 * (N mod D) ?= D); [destruct (Z.even (N / D))| |]; lia. }
  destruct (0 <=? e) eqn:E.
  - apply Z.leb_le in E. unfold Qle. simpl.
    assert (0 <= 2 ^ e) by (apply Z.pow_nonneg; lia). nia.
  - unfold Qle. simpl. lia.
Qed.

Lemma round_nonneg (q : Q) : (0 <= q)%Q -> (0 <= F64.round q)%Q.
Proof.
  intros H. unfold F64.round. destruct q as [n d]. simpl.
  destruct n as [|p|p].
  - lra.
  - apply round_pos_nonneg.
  - exfalso. unfold Qle in H. simpl in H. lia.
Qed.

(** Rounding is symmetric about zero: opposite numerators over one
    denominator round to opposite values. *)
Lemma round_opp (x y : Q) :
  Qnum y = - Qnum x -> Qden y = Qden x ->
  F64.round y = Qopp (F64.round x) \/ F64.round x = Qopp (F64.round y).
Proof.
  intros Hn Hd. unfold F64.round. rewrite Hn, Hd.
  destruct (Qnum x); simpl; auto.
Qed.

Lemma sub_opp (x y : Q) :
  F64.sub x y = Qopp (F64.sub y x) \/ F64.sub y x = Qopp (F64.sub x y).
Proof.
  apply round_opp.
  - destruct x as [xn xd], y as [yn yd]. simpl. lia.
  - destruct x as [xn xd], y as [yn yd]. simpl. apply Pos.mul_comm.
Qed.

Lemma div_opp (a b c : Q) :
  a = Qopp b \/ b = Qopp a ->
  F64.div a c = Qopp (F64.div b c) \/ F64.div b c = Qopp (F64.div a c).
Proof.
  assert (H : forall u, F64.div (Qopp u) c = Qopp (F64.div u c) \/
                        F64.div u c = Qopp (F64.div (Qopp u) c)).
  { intros u. apply round_opp.
    - destruct u as [un ud]. unfold Qdiv, Qmult, Qopp. simpl. lia.
    - reflexivity. }
  intros [E | E]; subst.
  - apply H.
  - destruct (H a) as [H1 | H1]; auto.
Qed.

Lemma opp_pair_eq (a b : Q) : a = Qopp b \/ b = Qopp a -> (a == - b)%Q.
Proof.
  intros [E | E]; rewrite E; [reflexivity | ring].
Qed.

(** The rebound tests are made on rounded quotients as well: rebounds of
    exactly 4.5% and 4% in exact arithmetic (32 to 33.44, 18 to 18.72)
    give quotients just below the floats 0.045 and 0.04 and fail them. *)
Lemma rebound_rounded_quotient :
  ((3344 # 100) - 32 == (45 # 1000) * 32)%Q /\
  rebound_at_least 32 (3344 # 100) (45 # 1000) = false /\
  ((1872 # 100) - 18 == (4 # 100) * 18)%Q /\
  rebound_at_least 18 (1872 # 100) (4 # 100) = false.
Proof. vm_compute. repeat split. Qed.

(** A rebound is the negative of a drop, also after rounding: a day whose
    rebound test succeeds for a bound [lo >= 0] fails every drop test with
    [pct >= 0]. *)
Lemma rebound_excludes_drop (prev today lo pct : Q) :
  (0 <= lo)%Q -> (0 <= pct)%Q ->
  rebound_at_least prev today lo = true ->
  drop_exceeds prev today pct = false.
Proof.
  intros Hlo Hpct. unfold rebound_at_least, drop_exceeds, change_pct.
  set (P := F64.round prev). set (T := F64.round today).
  pose proof (opp_pair_eq _ _ (sub_opp P T)) as Hs.
  pose proof (opp_pair_eq _ _ (div_opp _ _ P (sub_opp P T))) as Hd.
  pose proof (round_nonneg lo Hlo) as Hrlo.
  pose proof (round_nonneg pct Hpct) as Hrpct.
  unfold fdiv. destruct (Qeq_bool P 0).
  - destruct (Qlt_bool 0 (F64.sub T P)) eqn:E1.
    + apply Qlt_bool_iff in E1.
      replace (Qlt_bool 0 (F64.sub P T)) with false
        by (symmetry; apply Qlt_bool_false_iff; lra).
      destruct (Qlt_bool (F64.sub P T) 0); reflexivity.
    + destruct (Qlt_bool (F64.sub T P) 0); simpl; discriminate.
  - simpl. intros H. apply Qle_bool_iff in H.
    apply Qlt_bool_false_iff. lra.
Qed.

(** The yellow cycle over consecutive evaluations, from a state with no
    red light and no cooldown: a drop of more than 8% from a close above 30
    returns [cooling_triggered] and arms the next day; a rebound of at
    least 4.5% on that day returns [revert_to_strict], clears the
    observation and sets [cooldown_until] 72 hours later; and every date in
    the series up to that instant then returns [cooldown_active] and
    leaves the state alone. Drop and rebound are the code's tests on the
    binary64 quotients ([drop_exceeds], [rebound_at_least]). *)
Theorem yellow_cycle (d1 : Z) (vix_data : Series) (state : State) (v0 v1 v1' v2 : Q) :
  red_light_until state = None ->
  cooldown_until state = None ->
  loc vix_data d1 = Some v1 ->
  previous_close vix_data d1 = Some v0 ->
  Qlt_bool 30 (F64.round v0) = true ->
  drop_exceeds v0 v1 (8 # 100) = true ->
  loc vix_data (d1 + days 1) = Some v2 ->
  previous_close vix_data (d1 + days 1) = Some v1' ->
  rebound_at_least v1' v2 (45 # 1000) = true ->
  let r1 := vix_whipsaw_filter d1 vix_data state in
  let r2 := vix_whipsaw_filter (d1 + days 1) vix_data (snd r1) in
  fst r1 = cooling_triggered /\
  observation_day (snd r1) = Some (d1 + days 1) /\
  fst r2 = revert_to_strict /\
  cooldown_until (snd r2) = Some (d1 + days 1 + 72) /\
  observation_day (snd r2) = None /\
  forall d3 v3,
    d3 <= d1 + days 1 + 72 -> loc vix_data d3 = Some v3 ->
    vix_whipsaw_filter d3 vix_data (snd r2) = (cooldown_active, snd r2).
Proof.
  intros Hred Hcool Hl1 Hp1 H30 Hdrop Hl2 Hp2 Hreb.
  assert (E1 : vix_whipsaw_filter d1 vix_data state =
    (cooling_triggered,
     mk (cooldown_until state) (Some (d1 + days 1)) (Some d1) (red_light_until state)
        (red_count state) (observe_red_on state) (red_watch state)
        (volatility_floor state))).
  { unfold vix_whipsaw_filter. rewrite Hl1, Hred, Hcool, Hp1, H30, Hdrop. reflexivity. }
  cbv zeta. rewrite E1. cbn [fst snd].
  assert (E2 : vix_whipsaw_filter (d1 + days 1) vix_data
      (mk (cooldown_until state) (Some (d1 + days 1)) (Some d1) (red_light_until state)
          (red_count state) (observe_red_on state) (red_watch state)
          (volatility_floor state)) =
    (revert_to_strict,
     mk (Some (d1 + days 1 + 72)) None (Some d1) (red_light_until state)
        (red_count state) (observe_red_on state) (red_watch state)
        (volatility_floor state))).
  { unfold vix_whipsaw_filter. rewrite Hl2. cbn [red_light_until cooldown_until].
    rewrite Hred, Hcool, Hp2. cbn [is_active].
    rewrite (rebound_excludes_drop v1' v2 (45 # 1000) (8 # 100)) by (lra || exact Hreb).
    rewrite (rebound_excludes_drop v1' v2 (45 # 1000) (7 # 100)) by (lra || exact Hreb).
    rewrite andb_false_r. cbn [observation_day armed_for].
    rewrite Z.eqb_refl, Hreb. reflexivity. }
  rewrite E2. cbn [fst snd cooldown_until observation_day].
  repeat split.
  intros d3 v3 Hd3 Hl3. unfold vix_whipsaw_filter. rewrite Hl3.
  cbn [red_light_until cooldown_until]. rewrite Hred. cbn [is_active].
  replace (d3 <=? d1 + days 1 + 72) with true by (symmetry; apply Z.leb_le; exact Hd3).
  reflexivity.
Qed.

Lemma yellow_cycle_witness :
  let vix_data : Series := [(0, 35%Q); (24, 31%Q); (48, 33%Q); (72, 33%Q)] in
  let r1 := vix_whipsaw_filter 24 vix_data empty in
  let r2 := vix_whipsaw_filter 48 vix_data (snd r1) in
  drop_exceeds 35 31 (8 # 100) = true /\
  rebound_at_least 31 33 (45 # 1000) = true /\
  fst r1 = cooling_triggered /\
  fst r2 = revert_to_strict /\
  cooldown_until (snd r2) = Some 120 /\
  vix_whipsaw_filter 72 vix_data (snd r2) = (cooldown_active, snd r2).
Proof.
  cbv zeta. split; [reflexivity|]. split; [reflexivity|].
  destruct (yellow_cycle 24 [(0, 35%Q); (24, 31%Q); (48, 33%Q); (72, 33%Q)] empty
              35 31 31 33) as (H1 & _ & H3 & H4 & _ & H6); try reflexivity.
  split; [exact H1|]. split; [exact H3|]. split; [exact H4|].
  apply (H6 72 33%Q); [unfold days; lia | reflexivity].
Defined.

(** The red escalation over consecutive evaluations, from a state with no
    red light, cooldown or pending yellow observation: a drop of more than
    7% that is not a yellow trigger arms the watch; a rebound of at least
    4% on the next day returns [red_light_active], increments [red_count],
    clears the watch and sets [red_light_until] 72 hours later on the first
    escalation and 144 hours later on any further one; and every date in
    the series up to that instant returns [red_light_active]. Drop and
    rebound are the code's tests on the binary64 quotients
    ([drop_exceeds], [rebound_at_least]). *)
Theorem red_escalation (d1 : Z) (vix_data : Series) (state : State) (v0 v1 v1' v2 : Q) :
  red_light_until state = None ->
  cooldown_until state = None ->
  observation_day state = None ->
  loc vix_data d1 = Some v1 ->
  previous_close vix_data d1 = Some v0 ->
  drop_exceeds v0 v1 (7 # 100) = true ->
  Qlt_bool 30 (F64.round v0) && drop_exceeds v0 v1 (8 # 100) = false ->
  loc vix_data (d1 + days 1) = Some v2 ->
  previous_close vix_data (d1 + days 1) = Some v1' ->
  rebound_at_least v1' v2 (4 # 100) = true ->
  let r1 := vix_whipsaw_filter d1 vix_data state in
  let r2 := vix_whipsaw_filter (d1 + days 1) vix_data (snd r1) in
  let count := default 0 (red_count state) + 1 in
  let until := d1 + days 1 + (if count =? 1 then 72 else 144) in
  fst r1 = red_watch_triggered /\
  fst r2 = red_light_active /\
  red_count (snd r2) = Some count /\
  red_light_until (snd r2) = Some until /\
  red_watch (snd r2) = Some false /\
  observe_red_on (snd r2) = None /\
  forall d3 v3,
    d3 <= until -> loc vix_data d3 = Some v3 ->
    fst (vix_whipsaw_filter d3 vix_data (snd r2)) = red_light_active.
Proof.
  intros Hred Hcool Hobs Hl1 Hp1 Hdrop Hny Hl2 Hp2 Hreb.
  assert (E1 : vix_whipsaw_filter d1 vix_data state =
    (red_watch_triggered,
     mk (cooldown_until state) (observation_day state) (last_trigger_day state)
        (red_light_until state) (red_count state) (Some (d1 + days 1)) (Some true)
        (volatility_floor state))).
  { unfold vix_whipsaw_filter. rewrite Hl1, Hred, Hcool, Hp1, Hny, Hdrop. reflexivity. }
  cbv zeta. rewrite E1. cbn [fst snd].
  assert (E2 : vix_whipsaw_filter (d1 + days 1) vix_data
      (mk (cooldown_until state) (observation_day state) (last_trigger_day state)
          (red_light_until state) (red_count state) (Some (d1 + days 1)) (Some true)
          (volatility_floor state)) =
    (red_light_active,
     mk (cooldown_until state) (observation_day state) (last_trigger_day state)
        (Some (d1 + days 1 +
               (if default 0 (red_count state) + 1 =? 1 then 72 else 144)))
        (Some (default 0 (red_count state) + 1)) None (Some false)
        (volatility_floor state))).
  { unfold vix_whipsaw_filter. rewrite Hl2.
    cbn [red_light_until cooldown_until observation_day observe_red_on red_watch red_count].
    rewrite Hred, Hcool, Hobs, Hp2. cbn [is_active armed_for].
    rewrite (rebound_excludes_drop v1' v2 (4 # 100) (8 # 100)) by (lra || exact Hreb).
    rewrite (rebound_excludes_drop v1' v2 (4 # 100) (7 # 100)) by (lra || exact Hreb).
    rewrite andb_false_r, Z.eqb_refl, Hreb. reflexivity. }
  rewrite E2. cbn [fst snd red_count red_light_until red_watch observe_red_on].
  repeat split.
  intros d3 v3 Hd3 Hl3.
  match goal with |- fst (vix_whipsaw_filter d3 vix_data ?s) = _ =>
    destruct (red_branch d3 _ vix_data s v3 Hl3 eq_refl Hd3) as (_ & _ & E3)
  end.
  rewrite E3. reflexivity.
Qed.

Lemma red_escalation_witness :
  let vix_data : Series := [(0, 20%Q); (24, 18%Q); (48, 19%Q); (72, 19%Q)] in
  let r1 := vix_whipsaw_filter 24 vix_data empty in
  let r2 := vix_whipsaw_filter 48 vix_data (snd r1) in
  drop_exceeds 20 18 (7 # 100) = true /\
  rebound_at_least 18 19 (4 # 100) = true /\
  fst r1 = red_watch_triggered /\
  fst r2 = red_light_active /\
  red_count (snd r2) = Some 1 /\
  red_light_until (snd r2) = Some 120 /\
  fst (vix_whipsaw_filter 72 vix_data (snd r2)) = red_light_active.
Proof.
  cbv zeta. split; [reflexivity|]. split; [reflexivity|].
  destruct (red_escalation 24 [(0, 20%Q); (24, 18%Q); (48, 19%Q); (72, 19%Q)] empty
              20 18 18 19) as (H1 & H2 & H3 & H4 & _ & _ & H7); try reflexivity.
  split; [exact H1|]. split; [exact H2|]. split; [exact H3|]. split; [exact H4|].
  apply (H7 72 19%Q); [unfold days; simpl; lia | reflexivity].
Defined.

End RegimeFacts.

(** ** Allocation rules 2 to 5 and the driver *)

Section AllocationDriverFacts.
Import Py AllocationRules.

Lemma fold_left_Qplus_le (l l' : list Q) :
  Forall2 (fun a b => (b <= a)%Q) l l' ->
  forall a a' : Q, (a' <= a)%Q ->
    (fold_left Qplus l' a' <= fold_left Qplus l a)%Q.
Proof.
  induction 1 as [|x y l l' Hxy _ IH]; intros a a' Ha; simpl; [exact Ha|].
  apply IH. lra.
Qed.

Lemma total_le_pointwise (bw bw' : BinWeights) :
  Forall2 (fun old new => (snd new <= snd old)%Q) bw bw' ->
  (total bw' <= total bw)%Q.
Proof.
  intros H. unfold total. apply fold_left_Qplus_le; [|lra].
  induction H; simpl; constructor; auto.
Qed.

Lemma cap_pointwise (m : Q) (bw : BinWeights) :
  let capped := List.map (fun kv => if Qlt_bool m (snd kv) then (fst kv, m) else kv) bw in
  Forall (fun kv => (snd kv <= m)%Q) capped /\
  List.map fst capped = List.map fst bw /\
  Forall2 (fun old new => (snd new <= snd old)%Q) bw capped.
Proof.
  induction bw as [|[k w] bw IH]; simpl.
  - repeat split; constructor.
  - destruct IH as (H1 & H2 & H3).
    destruct (Qlt_bool m w) eqn:E; simpl.
    + apply Qlt_bool_iff in E.
      repeat split; [constructor; [simpl; lra | exact H1] | now rewrite H2 |
                     constructor; [simpl; lra | exact H3]].
    + apply Qlt_bool_false_iff in E.
      repeat split; [constructor; [simpl; exact E | exact H1] | now rewrite H2 |
                     constructor; [simpl; lra | exact H3]].
Qed.

(** Rule 3 never raises once [max_bin_weight] is configured: it returns the
    same bins in the same order with every weight at most the cap, so the
    total does not grow; it reports exactly the bins that were above the
    cap, with the weights they had; and with nothing to report the weights
    are returned as they were. *)
Theorem per_bin_maximum_caps (bin_weights : BinWeights) (constraints : gmap string Q)
    (max_bin : Q) :
  constraints !! "max_bin_weight" = Some max_bin ->
  exists capped flagged,
    enforce_per_bin_maximum bin_weights constraints = Ok (capped, flagged) /\
    Forall (fun kv => (snd kv <= max_bin)%Q) capped /\
    List.map fst capped = List.map fst bin_weights /\
    (total capped <= total bin_weights)%Q /\
    (forall kv, In kv flagged <-> In kv bin_weights /\ (max_bin < snd kv)%Q) /\
    (flagged = [] -> capped = bin_weights).
Proof.
  intros Hc. unfold enforce_per_bin_maximum. rewrite Hc.
  eexists _, _. split; [reflexivity|].
  destruct (cap_pointwise max_bin bin_weights) as (H1 & H2 & H3).
  cbv zeta in *. repeat split; auto.
  - apply total_le_pointwise. exact H3.
  - apply filter_In in H. apply H.
  - apply filter_In in H. apply Qlt_bool_iff. apply H.
  - intros [Hin Hlt]. apply filter_In. split; [exact Hin|].
    apply Qlt_bool_iff. exact Hlt.
  - intros Hnone. induction bin_weights as [|[k w] bw IH]; simpl in *; [reflexivity|].
    destruct (Qlt_bool max_bin w); [discriminate|].
    f_equal. apply IH; auto.
    + destruct (cap_pointwise max_bin bw) as (A & _ & _). exact A.
    + destruct (cap_pointwise max_bin bw) as (_ & B & _). exact B.
    + destruct (cap_pointwise max_bin bw) as (_ & _ & C). exact C.
Qed.

Lemma per_bin_maximum_caps_witness :
  let bin_weights : BinWeights := [("bin_01", 8 # 100); ("bin_02", 4 # 100)] in
  let constraints : gmap string Q := {[ "max_bin_weight" := 6 # 100 ]} in
  constraints !! "max_bin_weight" = Some (6 # 100) /\
  enforce_per_bin_maximum bin_weights constraints
  = Ok ([("bin_01", 6 # 100); ("bin_02", 4 # 100)], [("bin_01", 8 # 100)]) /\
  exists capped flagged,
    enforce_per_bin_maximum bin_weights constraints = Ok (capped, flagged) /\
    Forall (fun kv => (snd kv <= 6 # 100)%Q) capped.
Proof.
  cbv zeta.
  assert (Hc : ({[ "max_bin_weight" := 6 # 100 ]} : gmap string Q)
                 !! "max_bin_weight" = Some (6 # 100)) by reflexivity.
  split; [exact Hc|]. split; [reflexivity|].
  destruct (per_bin_maximum_caps [("bin_01", 8 # 100); ("bin_02", 4 # 100)]
              {[ "max_bin_weight" := 6 # 100 ]} (6 # 100) Hc)
    as (capped & flagged & H1 & H2 & _).
  exists capped, flagged. split; assumption.
Defined.

Section DriverWithSum.

Variable fsum : list Q -> Q.

(** Rules 1 and 2 keep the bins and their order. *)
Lemma scale_to_post (max_allowed : Q) (bw out : BinWeights) :
  scale_to fsum max_allowed bw = Ok out -> List.map fst out = List.map fst bw.
Proof.
  unfold scale_to.
  destruct (Qlt_bool max_allowed (fsum (List.map snd bw))).
  - destruct (Qeq_bool (fsum (List.map snd bw)) 0); [discriminate|].
    intros H. injection H as H. subst out. apply scale_names.
  - intros H. injection H as H. subst out. reflexivity.
Qed.

(** Whatever [enforce_allocation_rules] returns keeps the bins passed in,
    in order, and passes the checks the driver makes on the final
    weights: every weight is at most [max_bin_weight], there are at most
    25 bins, and the futures bins sum, as floats, to at most 0.05. (The
    reserve rules scale before the cap is applied; their totals are met up
    to rounding only and are not part of this statement.) *)
Theorem enforce_allocation_rules_post (bin_weights out : BinWeights)
    (constraints : gmap string Q) (bin_metadata : gmap string BinMeta) :
  enforce_allocation_rules fsum bin_weights constraints bin_metadata = Ok out ->
  exists liquidity_reserve manual_reserve max_bin,
    constraints !! "liquidity_reserve" = Some liquidity_reserve /\
    constraints !! "manual_trading_allocation" = Some manual_reserve /\
    constraints !! "max_bin_weight" = Some max_bin /\
    List.map fst out = List.map fst bin_weights /\
    Forall (fun kv => (snd kv <= max_bin)%Q) out /\
    (length out <= 25)%nat /\
    (float_total (List.filter (fun kv => is_futures bin_metadata (fst kv)) out)
     <= F64.round (5 # 100))%Q.
Proof.
  unfold enforce_allocation_rules, enforce_liquidity_reserve_only,
    enforce_manual_reserve_only.
  destruct (constraints !! "liquidity_reserve") as [lr|]; [|discriminate].
  destruct (scale_to fsum _ bin_weights) as [bw1|] eqn:E1; [|discriminate].
  destruct (constraints !! "manual_trading_allocation") as [mr|]; [|discriminate].
  destruct (scale_to fsum _ bw1) as [bw2|] eqn:E2; [|discriminate].
  unfold enforce_per_bin_maximum.
  destruct (constraints !! "max_bin_weight") as [m|]; [|discriminate].
  destruct (cap_pointwise m bw2) as (C1 & C2 & C3). cbv zeta in C1, C2, C3.
  set (bw3 := List.map (fun kv => if Qlt_bool m (snd kv) then (fst kv, m) else kv) bw2) in *.
  destruct (fst (enforce_bin_count_and_overlap bw3 bin_metadata)) eqn:E4;
    simpl; [|discriminate].
  destruct (fst (enforce_futures_allocation bw3 bin_metadata)) eqn:E5;
    simpl; [|discriminate].
  intros H. injection H as H. subst out.
  apply scale_to_post in E1. apply scale_to_post in E2.
  exists lr, mr, m. repeat split; auto.
  - congruence.
  - unfold enforce_bin_count_and_overlap in E4.
    rewrite List.length_map in E4.
    destruct (25 <? length bw3)%nat eqn:E; [discriminate|].
    apply Nat.ltb_ge in E. exact E.
  - unfold enforce_futures_allocation in E5.
    destruct (Qlt_bool (F64.round (5 # 100)) _) eqn:E; [discriminate|].
    apply Qlt_bool_false_iff in E. exact E.
Qed.

End DriverWithSum.

Lemma enforce_allocation_rules_post_witness :
  let bin_weights : BinWeights := [("bin_01", 50 # 100); ("bin_02", 45 # 100)] in
  let constraints : gmap string Q :=
    {[ "liquidity_reserve" := 10 # 100; "manual_trading_allocation" := 10 # 100;
       "max_bin_weight" := 6 # 100 ]} in
  exists out,
    enforce_allocation_rules sum_compensated bin_weights constraints ∅ = Ok out /\
    List.map fst out = ["bin_01"; "bin_02"] /\
    Forall (fun kv => (snd kv <= 6 # 100)%Q) out /\
    (length out <= 25)%nat.
Proof.
  cbv zeta.
  eassert (Hr : enforce_allocation_rules sum_compensated
                  [("bin_01", 50 # 100); ("bin_02", 45 # 100)]
                  ({[ "liquidity_reserve" := 10 # 100;
                      "manual_trading_allocation" := 10 # 100;
                      "max_bin_weight" := 6 # 100 ]} : gmap string Q) ∅ = Ok _)
    by (vm_compute; reflexivity).
  destruct (enforce_allocation_rules_post _ _ _ _ _ Hr)
    as (lr & mr & m & H1 & _ & H3 & H4 & H5 & H6 & _).
  assert (m = 6 # 100) by (vm_compute in H3; congruence).
  subst m. eexists. split; [exact Hr|]. split; [exact H4|]. split; [exact H5 | exact H6].
Defined.

End AllocationDriverFacts.
